(** * franka_hardware: the real-time control bridge and its ros2_control adapter

    A shallow embedding of [src/franka_hardware/src/robot.cpp], which holds the
    two translation units of the package:

    - class [Robot] (the bridge): owns the connection to the arm and the single
      loop thread, and exchanges the measured state and the pending command
      with it under two mutexes;
    - class [FrankaHardwareInterface] (the adapter): the ros2_control system
      interface that validates the description of the arm, forwards the
      per-cycle reads and writes, and switches the loop mode.

    C++ member functions become state transformers in a small outcome monad:
    a call returns, throws, aborts (a failed [assert], [std::terminate]), is
    undefined (a null [unique_ptr] is dereferenced) or hangs (a [join] of a
    thread that never ends).  A [double] is a primitive
    binary64 float, [std::array<double, 7>] a record of seven of them. *)

From Stdlib Require Import Floats List String Bool Arith Lia DecimalString.
From stdpp Require Import base gmap strings.
Import ListNotations.

Local Open Scope string_scope.

(** ** Doubles and seven-element arrays *)

Definition double : Set := float.

(** [std::isfinite]: neither a NaN nor an infinity. *)
Definition isfinite (c : double) : bool := PrimFloat.is_finite c.

(** [std::array<double, 7>]. *)
Record array7 : Set := Array7 {
  at0 : double; at1 : double; at2 : double; at3 : double;
  at4 : double; at5 : double; at6 : double }.

(** [std::array::fill]. *)
Definition fill (v : double) : array7 := Array7 v v v v v v v.

(** The elements from [begin()] to [end()]. *)
Definition elements (a : array7) : list double :=
  [at0 a; at1 a; at2 a; at3 a; at4 a; at5 a; at6 a].

(** [std::any_of] over a range. *)
Definition any_of {A : Type} (p : A -> bool) (l : list A) : bool := existsb p l.

(** [std::count_if] over a range. *)
Fixpoint count_if {A : Type} (p : A -> bool) (l : list A) : nat :=
  match l with
  | [] => 0
  | x :: l' => if p x then S (count_if p l') else count_if p l'
  end.

(** ** The outcome monad *)

Inductive exception : Set :=
| invalid_argument (what : string)   (* std::invalid_argument *)
| out_of_range                       (* std::out_of_range *)
| system_error                       (* std::system_error, join of a thread that is not joinable *)
| franka_Exception (what : string).  (* franka::Exception and its subclasses *)

Inductive outcome (St A : Type) : Type :=
| Returns (a : A) (s : St)        (* normal return, with the state left behind *)
| Throws (e : exception) (s : St) (* an exception leaves the function *)
| Aborts                          (* failed assert or std::terminate *)
| Undefined                       (* dereference of a null unique_ptr *)
| Hangs.                          (* a join of a thread that never ends *)

Arguments Returns {St A} a s.
Arguments Throws {St A} e s.
Arguments Aborts {St A}.
Arguments Undefined {St A}.
Arguments Hangs {St A}.

Definition M (St A : Type) : Type := St -> outcome St A.

Definition ret {St A : Type} (a : A) : M St A := fun s => Returns a s.

Definition bind {St A B : Type} (m : M St A) (k : A -> M St B) : M St B :=
  fun s =>
    match m s with
    | Returns a s' => k a s'
    | Throws e s' => Throws e s'
    | Aborts => Aborts
    | Undefined => Undefined
    | Hangs => Hangs
    end.

Definition get {St : Type} : M St St := fun s => Returns s s.
Definition modify {St : Type} (f : St -> St) : M St unit := fun s => Returns tt (f s).
Definition throw {St A : Type} (e : exception) : M St A := fun s => Throws e s.
Definition abort {St A : Type} : M St A := fun _ => Aborts.
Definition undefined {St A : Type} : M St A := fun _ => Undefined.
Definition hang {St A : Type} : M St A := fun _ => Hangs.

(** [assert(c)] of <cassert>. *)
Definition assert {St : Type} (c : bool) : M St unit :=
  if c then ret tt else abort.

(** The monad structure, with stdpp's notations [x ← m; k] and [m;; k]. *)
#[global] Instance M_ret {St : Type} : MRet (M St) := fun A => @ret St A.
#[global] Instance M_bind {St : Type} : MBind (M St) := fun A B k m => @bind St A B m k.

(** ** The measured state *)

(** [franka::RobotState], restricted to the members this package reads. *)
Record RobotState : Set := mkRobotState {
  q : array7;       (* joint positions *)
  dq : array7;      (* joint velocities *)
  tau_J : array7 }. (* measured joint torques *)

(** Modelled from the spec: a default-constructed [franka::RobotState] (a type
    of the manufacturer library, not among the sources) is zero-initialised:
    Read is 'zero-initialized before the first loop iteration completes'. *)
Definition RobotState_default : RobotState :=
  mkRobotState (fill 0%float) (fill 0%float) (fill 0%float).

(** ** The host and the manufacturer library *)

Inductive RealtimeConfig : Set := kEnforce | kIgnore.

(** The three loop bodies a control thread can run. *)
Inductive loop : Set := kTorqueControl | kVelocityControl | kReading.

(** A [std::thread]: the body it was started with and whether it is still
    joinable (started and not yet joined). *)
Record thread : Set := mkThread { body : loop; joinable : bool }.

Inductive mutex : Set := read_mutex | write_mutex.

Inductive slot : Set := tau_slot | vel_slot.

(** What a bridge does that the outside can observe. *)
Inductive event : Set :=
| Lock (m : mutex)               (* a std::lock_guard is constructed *)
| Unlock (m : mutex)             (* the std::lock_guard goes out of scope *)
| Publish                        (* current_state_ = state *)
| Snapshot                       (* a copy of current_state_ is taken *)
| StoreCommand (s : slot)        (* a command slot is overwritten *)
| FetchCommand (s : slot)        (* a command slot is copied into the output *)
| SetFinish (b : bool)           (* finish_ = b *)
| TestFinish                     (* finish_ is read *)
| Spawn (l : loop)               (* std::make_unique<std::thread>(l) *)
| Join (l : loop)                (* control_thread_->join() has returned *)
| SetJointImpedance (K : array7) (* franka::Robot::setJointImpedance *)
| Warn (msg : string).           (* RCLCPP_WARN *)

(** What the package asks of its surroundings: [franka::hasRealtimeKernel()],
    whether the handshake of [franka::Robot]'s constructor with the arm at an
    address succeeds ([None]) or throws, with the text of [what()], and the
    arm itself: the state it measures, given what the bridge has done so
    far. *)
Record Host : Set := mkHost {
  hasRealtimeKernel : bool;
  handshake : string -> option string;
  arm : list event -> RobotState }.

(** [franka::Robot]: the address it is connected to, its real-time policy,
    and the state [control] and [read] hand to the next call of their
    callback, given what the bridge has done so far. *)
Record franka_Robot : Set := mkfranka_Robot {
  address : string;
  realtime_config : RealtimeConfig;
  next_state : list event -> RobotState }.

(** ** Class Robot: the bridge *)

Module Robot.

(** The members of the class, and the trace of its observable actions, the
    newest first. *)
Record t : Set := mk {
  control_thread_ : option thread;       (* std::unique_ptr<std::thread> *)
  robot_ : franka_Robot;                 (* std::unique_ptr<franka::Robot> *)
  finish_ : bool;
  stopped_ : bool;
  use_velocity_control_ : bool;
  current_state_ : RobotState;
  tau_command_ : array7;
  vel_command_ : array7;
  trace_ : list event }.

Definition set_control_thread_ (v : option thread) (r : t) : t :=
  mk v (robot_ r) (finish_ r) (stopped_ r) (use_velocity_control_ r)
     (current_state_ r) (tau_command_ r) (vel_command_ r) (trace_ r).
Definition set_finish_ (v : bool) (r : t) : t :=
  mk (control_thread_ r) (robot_ r) v (stopped_ r) (use_velocity_control_ r)
     (current_state_ r) (tau_command_ r) (vel_command_ r) (SetFinish v :: trace_ r).
Definition set_stopped_ (v : bool) (r : t) : t :=
  mk (control_thread_ r) (robot_ r) (finish_ r) v (use_velocity_control_ r)
     (current_state_ r) (tau_command_ r) (vel_command_ r) (trace_ r).
Definition set_use_velocity_control_ (v : bool) (r : t) : t :=
  mk (control_thread_ r) (robot_ r) (finish_ r) (stopped_ r) v
     (current_state_ r) (tau_command_ r) (vel_command_ r) (trace_ r).
Definition set_current_state_ (v : RobotState) (r : t) : t :=
  mk (control_thread_ r) (robot_ r) (finish_ r) (stopped_ r) (use_velocity_control_ r)
     v (tau_command_ r) (vel_command_ r) (Publish :: trace_ r).
Definition set_tau_command_ (v : array7) (r : t) : t :=
  mk (control_thread_ r) (robot_ r) (finish_ r) (stopped_ r) (use_velocity_control_ r)
     (current_state_ r) v (vel_command_ r) (StoreCommand tau_slot :: trace_ r).
Definition set_vel_command_ (v : array7) (r : t) : t :=
  mk (control_thread_ r) (robot_ r) (finish_ r) (stopped_ r) (use_velocity_control_ r)
     (current_state_ r) (tau_command_ r) v (StoreCommand vel_slot :: trace_ r).
Definition emit (e : event) (r : t) : t :=
  mk (control_thread_ r) (robot_ r) (finish_ r) (stopped_ r) (use_velocity_control_ r)
     (current_state_ r) (tau_command_ r) (vel_command_ r) (e :: trace_ r).

(** [std::lock_guard<std::mutex> lock(m)] around a scope. *)
Definition lock_guard {A : Type} (m : mutex) (scope : M t A) : M t A :=
  modify (emit (Lock m));;
  a ← scope;
  modify (emit (Unlock m));;
  ret a.

(** Modelled from the spec: the default member initialisers of class [Robot]
    are declared in robot.hpp, which is not among the sources.  No loop runs
    after Connect (the Start operations require a stopped bridge, and Activate
    starts one right after Initialize), the finish flag is clear outside Stop,
    and Write stores into the torque slot until velocity control is started. *)
Definition stopped_default : bool := true.
Definition finish_default : bool := false.
Definition use_velocity_control_default : bool := false.

(** [Robot::Robot(robot_ip, logger)]: the object under construction; the
    constructor of [franka::Robot] throws when the handshake fails. *)
Definition new (host : Host) (robot_ip : string) : exception + t :=
  let tau := fill 0%float in
  let vel := fill 0%float in
  let rt_config := if negb (hasRealtimeKernel host) then kIgnore else kEnforce in
  let warned :=
    if negb (hasRealtimeKernel host)
    then [Warn "You are not using a real-time kernel. Using a real-time kernel is strongly recommended!"]
    else [] in
  match handshake host robot_ip with
  | Some what => inl (franka_Exception what)
  | None =>
      inr (mk None (mkfranka_Robot robot_ip rt_config (arm host))
              finish_default stopped_default
              use_velocity_control_default RobotState_default tau vel warned)
  end.

(** [Robot::write]. *)
Definition write (command : array7) : M t unit :=
  lock_guard write_mutex
    (r ← get;
     if use_velocity_control_ r
     then modify (set_vel_command_ command)
     else modify (set_tau_command_ command)).

(** [Robot::read]. *)
Definition read : M t RobotState :=
  lock_guard read_mutex
    (modify (emit Snapshot);;
     r ← get;
     ret (current_state_ r)).

(** [Robot::isStopped]. *)
Definition isStopped (r : t) : bool := stopped_ r.

(** The output of a control callback: [franka::Torques] and
    [franka::JointVelocities] both hold seven values and [motion_finished]. *)
Record output : Set := mkOutput { values : array7; motion_finished : bool }.

(** The callback handed to [robot_->control] by [initializeTorqueControl]. *)
Definition torque_callback (state : RobotState) : M t output :=
  lock_guard read_mutex (modify (set_current_state_ state));;
  lock_guard write_mutex
    (modify (emit (FetchCommand tau_slot));;
     modify (emit TestFinish);;
     r ← get;
     ret (mkOutput (tau_command_ r) (finish_ r))).

(** The callback handed to [robot_->control] by [initializeVelocityControl]. *)
Definition velocity_callback (state : RobotState) : M t output :=
  lock_guard read_mutex (modify (set_current_state_ state));;
  lock_guard write_mutex
    (modify (emit (FetchCommand vel_slot));;
     modify (emit TestFinish);;
     r ← get;
     ret (mkOutput (vel_command_ r) (finish_ r))).

(** The callback handed to [robot_->read] by [initializeContinuousReading];
    it returns whether reading goes on. *)
Definition reading_callback (state : RobotState) : M t bool :=
  lock_guard read_mutex (modify (set_current_state_ state));;
  modify (emit TestFinish);;
  r ← get;
  ret (negb (finish_ r)).

(** What [robot_->control] and [robot_->read] do with one more state of
    the arm: they call the callback of the loop, and go on with the loop
    unless a control callback returns [motion_finished] or the reading
    callback returns false. *)
Definition iteration (l : loop) (state : RobotState) : M t bool :=
  match l with
  | kTorqueControl => out ← torque_callback state; ret (negb (motion_finished out))
  | kVelocityControl => out ← velocity_callback state; ret (negb (motion_finished out))
  | kReading => reading_callback state
  end.

(** [control_thread_->join()]: the caller waits for the thread to end.  The
    loop ends in the iteration whose callback tells the library to leave it;
    that iteration is the one that follows here, with the next state of the
    arm.  If its callback lets the loop go on, no later one differs and the
    join never returns.  After the join the thread object is not joinable. *)
Definition join : M t unit :=
  r ← get;
  match control_thread_ r with
  | None => undefined
  | Some th =>
      if joinable th
      then goes_on ← iteration (body th) (next_state (robot_ r) (trace_ r));
           if goes_on : bool
           then (hang : M t unit)
           else modify (set_control_thread_ (Some (mkThread (body th) false)));;
                modify (emit (Join (body th)))
      else throw system_error
  end.

(** [Robot::stopRobot]. *)
Definition stopRobot : M t unit :=
  r ← get;
  if negb (stopped_ r)
  then modify (set_finish_ true);;
       join;;
       modify (set_finish_ false);;
       modify (set_stopped_ true)
  else ret tt.

(** [control_thread_ = std::make_unique<std::thread>(l)]: the thread object
    held before is destroyed, which terminates the process if it is joinable. *)
Definition spawn (l : loop) : M t unit :=
  r ← get;
  match control_thread_ r with
  | Some th => if joinable th then abort else ret tt
  | None => ret tt
  end;;
  modify (set_control_thread_ (Some (mkThread l true)));;
  modify (emit (Spawn l)).

(** [Robot::initializeTorqueControl]. *)
Definition initializeTorqueControl : M t unit :=
  r ← get;
  assert (isStopped r);;
  modify (set_stopped_ false);;
  spawn kTorqueControl.

(** [Robot::initializeVelocityControl]. *)
Definition initializeVelocityControl : M t unit :=
  r ← get;
  assert (isStopped r);;
  modify (set_stopped_ false);;
  modify (set_use_velocity_control_ true);;
  modify (emit (SetJointImpedance
    (Array7 2000 2000 2000 2000 1000 1000 1000)%float));;
  spawn kVelocityControl.

(** [Robot::initializeContinuousReading]. *)
Definition initializeContinuousReading : M t unit :=
  r ← get;
  assert (isStopped r);;
  modify (set_stopped_ false);;
  spawn kReading.

(** [Robot::~Robot]. *)
Definition destroy : M t unit := stopRobot.

(** The loop that is running: the body of the control thread while it is
    joinable. *)
Definition active_loop (r : t) : option loop :=
  match control_thread_ r with
  | Some th => if joinable th then Some (body th) else None
  | None => None
  end.

End Robot.

(** ** The ros2_control side *)

(** [hardware_interface::return_type]. *)
Module return_type.
Inductive t : Set := OK | ERROR.
End return_type.

(** [CallbackReturn] of the lifecycle node interface. *)
Module CallbackReturn.
Inductive t : Set := SUCCESS | FAILURE | ERROR.
Definition eqb (x y : t) : bool :=
  match x, y with
  | SUCCESS, SUCCESS | FAILURE, FAILURE | ERROR, ERROR => true
  | _, _ => false
  end.
End CallbackReturn.

(** The interface names of hardware_interface_type_values.hpp (ros2_control). *)
Definition HW_IF_POSITION : string := "position".
Definition HW_IF_VELOCITY : string := "velocity".
Definition HW_IF_EFFORT : string := "effort".

(** [hardware_interface::InterfaceInfo], [ComponentInfo] and [HardwareInfo],
    restricted to the members this package reads. *)
Record InterfaceInfo : Set := mkInterfaceInfo { interface_name : string }.

Record ComponentInfo : Set := mkComponentInfo {
  name : string;
  command_interfaces : list InterfaceInfo;
  state_interfaces : list InterfaceInfo }.

Record HardwareInfo : Type := mkHardwareInfo {
  joints : list ComponentInfo;
  hardware_parameters : gmap string string }.

(** Modelled from the spec: [kNumberOfJoints] is declared in
    franka_hardware_interface.hpp, which is not among the sources; 'exactly 7
    joints are configured', and [Robot::write] takes the adapter's command
    array as a [std::array<double, 7>]. *)
Definition kNumberOfJoints : nat := 7.

(** [std::to_string] of a count. *)
Definition to_string (n : nat) : string := NilZero.string_of_uint (Nat.to_uint n).

(** The double quote character, for format strings that contain it. *)
Definition dquote : string := String (Ascii.ascii_of_nat 34) EmptyString.

Inductive severity : Set := INFO | FATAL.

(** An argument of a printf-style logging call. *)
Inductive arg : Set := str (s : string) | num (n : nat).

(** What the adapter does that the outside can observe. *)
Inductive io : Set :=
| Log (sev : severity) (format : string) (args : list arg) (* RCLCPP_INFO, RCLCPP_FATAL *)
| ParameterAt (key : string)      (* info_.hardware_parameters.at(key) *)
| Connect (robot_ip : string).    (* the constructor of Robot is entered *)

(** The four arrays of the adapter whose elements are handed out. *)
Inductive member : Set := positions | velocities | efforts | commands.

(** [&hw_positions_.at(i)] and the like: a pointer to one element of one
    of the four arrays. *)
Record pointer : Set := mkPointer { target : member; offset : nat }.

(** [hardware_interface::StateInterface] and [CommandInterface]: the name of
    the joint, the name of the interface, and the pointer to the value. *)
Record Handle : Set := mkHandle {
  prefix_name : string;
  handle_interface : string;
  value_ptr : pointer }.

(** ** Class FrankaHardwareInterface: the adapter *)

Module FrankaHardwareInterface.

(** The members of the class, and the trace of its observable actions, the
    newest first. *)
Record t : Type := mk {
  info_ : HardwareInfo;
  robot_ : option Robot.t;               (* std::unique_ptr<Robot> *)
  hw_commands_ : array7;
  hw_positions_ : array7;
  hw_velocities_ : array7;
  hw_efforts_ : array7;
  velocity_interface_claimed_ : bool;
  velocity_interface_running_ : bool;
  io_ : list io }.

Definition set_info_ (v : HardwareInfo) (a : t) : t :=
  mk v (robot_ a) (hw_commands_ a) (hw_positions_ a) (hw_velocities_ a) (hw_efforts_ a)
     (velocity_interface_claimed_ a) (velocity_interface_running_ a) (io_ a).
Definition set_robot_ (v : option Robot.t) (a : t) : t :=
  mk (info_ a) v (hw_commands_ a) (hw_positions_ a) (hw_velocities_ a) (hw_efforts_ a)
     (velocity_interface_claimed_ a) (velocity_interface_running_ a) (io_ a).
Definition set_hw_commands_ (v : array7) (a : t) : t :=
  mk (info_ a) (robot_ a) v (hw_positions_ a) (hw_velocities_ a) (hw_efforts_ a)
     (velocity_interface_claimed_ a) (velocity_interface_running_ a) (io_ a).
Definition set_hw_positions_ (v : array7) (a : t) : t :=
  mk (info_ a) (robot_ a) (hw_commands_ a) v (hw_velocities_ a) (hw_efforts_ a)
     (velocity_interface_claimed_ a) (velocity_interface_running_ a) (io_ a).
Definition set_hw_velocities_ (v : array7) (a : t) : t :=
  mk (info_ a) (robot_ a) (hw_commands_ a) (hw_positions_ a) v (hw_efforts_ a)
     (velocity_interface_claimed_ a) (velocity_interface_running_ a) (io_ a).
Definition set_hw_efforts_ (v : array7) (a : t) : t :=
  mk (info_ a) (robot_ a) (hw_commands_ a) (hw_positions_ a) (hw_velocities_ a) v
     (velocity_interface_claimed_ a) (velocity_interface_running_ a) (io_ a).
Definition set_velocity_interface_claimed_ (v : bool) (a : t) : t :=
  mk (info_ a) (robot_ a) (hw_commands_ a) (hw_positions_ a) (hw_velocities_ a) (hw_efforts_ a)
     v (velocity_interface_running_ a) (io_ a).
Definition set_velocity_interface_running_ (v : bool) (a : t) : t :=
  mk (info_ a) (robot_ a) (hw_commands_ a) (hw_positions_ a) (hw_velocities_ a) (hw_efforts_ a)
     (velocity_interface_claimed_ a) v (io_ a).
Definition emit (e : io) (a : t) : t :=
  mk (info_ a) (robot_ a) (hw_commands_ a) (hw_positions_ a) (hw_velocities_ a) (hw_efforts_ a)
     (velocity_interface_claimed_ a) (velocity_interface_running_ a) (e :: io_ a).

(** [RCLCPP_INFO(getLogger(), ...)] and [RCLCPP_FATAL(getLogger(), ...)]. *)
Definition RCLCPP (sev : severity) (format : string) (args : list arg) : M t unit :=
  modify (emit (Log sev format args)).

(** [robot_->f(...)]: a member function of the bridge called through the
    adapter's pointer to it. *)
Definition call {A : Type} (f : M Robot.t A) : M t A :=
  fun a =>
    match robot_ a with
    | None => Undefined
    | Some r =>
        match f r with
        | Returns x r' => Returns x (set_robot_ (Some r') a)
        | Throws e r' => Throws e (set_robot_ (Some r') a)
        | Aborts => Aborts
        | Undefined => Undefined
        | Hangs => Hangs
        end
    end.

(** [&hw_positions_.at(i)] and the like: [std::array::at] on an array of
    seven throws [std::out_of_range] when [i] is not below seven. *)
Definition address_at (m : member) (i : nat) : M t pointer :=
  if (i <? 7)%nat then mret (mkPointer m i) else throw out_of_range.

(** The loop of [export_state_interfaces] from index [i] on, over the joints
    that are left, with the vector built so far. *)
Fixpoint export_state_interfaces_from (i : nat) (js : list ComponentInfo)
    (state_interfaces : list Handle) : M t (list Handle) :=
  match js with
  | [] => mret state_interfaces
  | joint :: js' =>
      p ← address_at positions i;
      let state_interfaces := (state_interfaces ++ [mkHandle (name joint) HW_IF_POSITION p])%list in
      v ← address_at velocities i;
      let state_interfaces := (state_interfaces ++ [mkHandle (name joint) HW_IF_VELOCITY v])%list in
      e ← address_at efforts i;
      let state_interfaces := (state_interfaces ++ [mkHandle (name joint) HW_IF_EFFORT e])%list in
      export_state_interfaces_from (S i) js' state_interfaces
  end.

(** [FrankaHardwareInterface::export_state_interfaces]. *)
Definition export_state_interfaces : M t (list Handle) :=
  a ← get;
  export_state_interfaces_from 0 (joints (info_ a)) [].

(** The loop of [export_command_interfaces] from index [i] on. *)
Fixpoint export_command_interfaces_from (i : nat) (js : list ComponentInfo)
    (command_interfaces : list Handle) : M t (list Handle) :=
  match js with
  | [] => mret command_interfaces
  | joint :: js' =>
      c ← address_at commands i;
      export_command_interfaces_from (S i) js'
        (command_interfaces ++ [mkHandle (name joint) HW_IF_VELOCITY c])%list
  end.

(** [FrankaHardwareInterface::export_command_interfaces]. *)
Definition export_command_interfaces : M t (list Handle) :=
  a ← get;
  export_command_interfaces_from 0 (joints (info_ a)) [].

(** [FrankaHardwareInterface::read]. *)
Definition read : M t return_type.t :=
  kState ← call Robot.read;
  modify (set_hw_positions_ (q kState));;
  modify (set_hw_velocities_ (dq kState));;
  modify (set_hw_efforts_ (tau_J kState));;
  mret return_type.OK.

(** [FrankaHardwareInterface::write]. *)
Definition write : M t return_type.t :=
  a ← get;
  if any_of (fun c => negb (isfinite c)) (elements (hw_commands_ a))
  then mret return_type.ERROR
  else call (Robot.write (hw_commands_ a));;
       mret return_type.OK.

(** [FrankaHardwareInterface::on_activate]. *)
Definition on_activate : M t CallbackReturn.t :=
  call Robot.initializeContinuousReading;;
  modify (set_hw_commands_ (fill 0%float));;
  read;;
  RCLCPP INFO "Started" [];;
  mret CallbackReturn.SUCCESS.

(** [FrankaHardwareInterface::on_deactivate]. *)
Definition on_deactivate : M t CallbackReturn.t :=
  RCLCPP INFO "trying to Stop..." [];;
  call Robot.stopRobot;;
  RCLCPP INFO "Stopped" [];;
  mret CallbackReturn.SUCCESS.

(** [hardware_interface::SystemInterface::on_init] of ros2_control: it keeps
    the description in [info_]. *)
Definition SystemInterface_on_init (info : HardwareInfo) : M t CallbackReturn.t :=
  modify (set_info_ info);;
  mret CallbackReturn.SUCCESS.

(** [v[i]] for a [std::vector] of interface descriptions. *)
Definition subscript (v : list InterfaceInfo) (i : nat) : M t InterfaceInfo :=
  match v !! i with
  | Some x => mret x
  | None => undefined
  end.

(** The body of the loop over the joints in [on_init]: [Some] is an early
    return from the function, [None] goes on with the next joint. *)
Definition check_joint (joint : ComponentInfo) : M t (option CallbackReturn.t) :=
  if negb (length (command_interfaces joint) =? 1)%nat then
    RCLCPP FATAL "Joint '%s' has %zu command interfaces found. 1 expected."
      [str (name joint); num (length (command_interfaces joint))];;
    mret (Some CallbackReturn.ERROR)
  else
  c0 ← subscript (command_interfaces joint) 0;
  if negb (String.eqb (interface_name c0) HW_IF_VELOCITY) then
    RCLCPP FATAL "Joint '%s' has unexpected command interface '%s'. Expected '%s'"
      [str (name joint); str (interface_name c0); str HW_IF_VELOCITY];;
    mret (Some CallbackReturn.ERROR)
  else
  if negb (length (state_interfaces joint) =? 3)%nat then
    RCLCPP FATAL "Joint '%s' has %zu state interfaces found. 3 expected."
      [str (name joint); num (length (state_interfaces joint))];;
    mret (Some CallbackReturn.ERROR)
  else
  s0 ← subscript (state_interfaces joint) 0;
  s1 ← subscript (state_interfaces joint) 1;
  s2 ← subscript (state_interfaces joint) 2;
  (if negb (String.eqb (interface_name s0) HW_IF_POSITION) then
     RCLCPP FATAL "Joint '%s' has unexpected state interface '%s'. Expected '%s'"
       [str (name joint); str (interface_name s0); str HW_IF_POSITION]
   else mret tt);;
  (if negb (String.eqb (interface_name s1) HW_IF_VELOCITY) then
     RCLCPP FATAL "Joint '%s' has unexpected state interface '%s'. Expected '%s'"
       [str (name joint); str (interface_name s0); str HW_IF_VELOCITY]
   else mret tt);;
  (if negb (String.eqb (interface_name s2) HW_IF_EFFORT) then
     RCLCPP FATAL "Joint '%s' has unexpected state interface '%s'. Expected '%s'"
       [str (name joint); str (interface_name s0); str HW_IF_EFFORT]
   else mret tt);;
  mret None.

(** [for (const auto& joint : info_.joints) { ... }] in [on_init]. *)
Fixpoint check_joints (js : list ComponentInfo) : M t (option CallbackReturn.t) :=
  match js with
  | [] => mret None
  | joint :: js' =>
      r ← check_joint joint;
      match r with
      | Some early => mret (Some early)
      | None => check_joints js'
      end
  end.

(** [robot_ = std::make_unique<Robot>(robot_ip, getLogger())]: the bridge is
    constructed, then the one held before, if any, is destroyed. *)
Definition make_robot (host : Host) (robot_ip : string) : M t (option string) :=
  modify (emit (Connect robot_ip));;
  match Robot.new host robot_ip with
  | inl (franka_Exception what) => mret (Some what)
  | inl e => throw e
  | inr r =>
      a ← get;
      match robot_ a with
      | None => mret tt
      | Some old =>
          match Robot.destroy old with
          | Returns _ _ => mret tt
          | Throws _ _ | Aborts => abort
          | Undefined => undefined
          | Hangs => hang
          end
      end;;
      modify (set_robot_ (Some r));;
      mret None
  end.

(** [FrankaHardwareInterface::on_init]. *)
Definition on_init (host : Host) (info : HardwareInfo) : M t CallbackReturn.t :=
  base ← SystemInterface_on_init info;
  if negb (CallbackReturn.eqb base CallbackReturn.SUCCESS) then mret CallbackReturn.ERROR else
  a ← get;
  if negb (length (joints (info_ a)) =? kNumberOfJoints)%nat then
    RCLCPP FATAL "Got %ld joints. Expected %ld."
      [num (length (joints (info_ a))); num kNumberOfJoints];;
    mret CallbackReturn.ERROR
  else
  early ← check_joints (joints (info_ a));
  match early with
  | Some result => mret result
  | None =>
      modify (emit (ParameterAt "robot_ip"));;
      match hardware_parameters (info_ a) !! "robot_ip" with
      | None =>
          RCLCPP FATAL "Parameter 'robot_ip' not set" [];;
          mret CallbackReturn.ERROR
      | Some robot_ip =>
          RCLCPP INFO ("Connecting to robot at " ++ dquote ++ "%s" ++ dquote ++ " ...")
            [str robot_ip];;
          failed ← make_robot host robot_ip;
          match failed with
          | Some what =>
              RCLCPP FATAL "Could not connect to robot" [];;
              RCLCPP FATAL "%s" [str what];;
              mret CallbackReturn.ERROR
          | None =>
              RCLCPP INFO "Successfully connected to robot" [];;
              mret CallbackReturn.SUCCESS
          end
      end
  end.

(** [FrankaHardwareInterface::perform_command_mode_switch]; the two
    arguments are unnamed in the source. *)
Definition perform_command_mode_switch (start_interfaces stop_interfaces : list string)
  : M t return_type.t :=
  a ← get;
  (if negb (velocity_interface_running_ a) && velocity_interface_claimed_ a then
     call Robot.stopRobot;;
     call Robot.initializeVelocityControl;;
     modify (set_velocity_interface_running_ true)
   else if velocity_interface_running_ a && negb (velocity_interface_claimed_ a) then
     call Robot.stopRobot;;
     call Robot.initializeContinuousReading;;
     modify (set_velocity_interface_running_ false)
   else mret tt);;
  mret return_type.OK.

(** The lambda [is_velocity_interface] of [prepare_command_mode_switch]:
    [interface.find(HW_IF_VELOCITY) != std::string::npos]. *)
Definition is_velocity_interface (interface : string) : bool :=
  match String.index 0 HW_IF_VELOCITY interface with
  | Some _ => true
  | None => false
  end.

(** [FrankaHardwareInterface::prepare_command_mode_switch]. *)
Definition prepare_command_mode_switch (start_interfaces stop_interfaces : list string)
  : M t return_type.t :=
  let num_stop_velocity_interfaces := count_if is_velocity_interface stop_interfaces in
  (if (num_stop_velocity_interfaces =? kNumberOfJoints)%nat then
     modify (set_velocity_interface_claimed_ false)
   else if negb (num_stop_velocity_interfaces =? 0)%nat then
     RCLCPP FATAL "Expected %ld velocity interfaces to stop, but got %ld instead."
       [num kNumberOfJoints; num num_stop_velocity_interfaces];;
     throw (invalid_argument
       ("Invalid number of velocity interfaces to stop. Expected " ++ to_string kNumberOfJoints))
   else mret tt);;
  let num_start_velocity_interfaces := count_if is_velocity_interface start_interfaces in
  (if (num_start_velocity_interfaces =? kNumberOfJoints)%nat then
     modify (set_velocity_interface_claimed_ true)
   else if negb (num_start_velocity_interfaces =? 0)%nat then
     RCLCPP FATAL "Expected %ld velocity interfaces to start, but got %ld instead."
       [num kNumberOfJoints; num num_start_velocity_interfaces];;
     throw (invalid_argument
       ("Invalid number of velocity interfaces to start. Expected " ++ to_string kNumberOfJoints))
   else mret tt);;
  mret return_type.OK.

End FrankaHardwareInterface.

(** ** Clients of the bridge, its invariant, and readings of a trace *)

(** One iteration of the loop thread: the manufacturer library hands a fresh
    state to the callback of the loop that is running. *)
Definition loop_iteration (state : RobotState) : M Robot.t unit :=
  r ← get;
  match Robot.active_loop r with
  | Some kTorqueControl => Robot.torque_callback state;; mret tt
  | Some kVelocityControl => Robot.velocity_callback state;; mret tt
  | Some kReading => Robot.reading_callback state;; mret tt
  | None => mret tt
  end.

(** The loop thread runs some iterations while the caller is between two
    statements. *)
Fixpoint loop_iterations (states : list RobotState) : M Robot.t unit :=
  match states with
  | [] => mret tt
  | state :: states' => loop_iteration state;; loop_iterations states'
  end.

(** What can happen to a bridge: a call of its public interface by the
    thread that owns it, or an iteration of its loop thread. *)
Inductive action : Set :=
| Write (command : array7)
| Read
| StopRobot
| InitializeTorqueControl
| InitializeVelocityControl
| InitializeContinuousReading
| Iterate (state : RobotState).

Definition act (x : action) : M Robot.t unit :=
  match x with
  | Write command => Robot.write command
  | Read => Robot.read;; mret tt
  | StopRobot => Robot.stopRobot
  | InitializeTorqueControl => Robot.initializeTorqueControl
  | InitializeVelocityControl => Robot.initializeVelocityControl
  | InitializeContinuousReading => Robot.initializeContinuousReading
  | Iterate state => loop_iteration state
  end.

Fixpoint acts (xs : list action) : M Robot.t unit :=
  match xs with
  | [] => mret tt
  | x :: xs' => act x;; acts xs'
  end.

Definition is_write (x : action) : bool :=
  match x with Write _ => true | _ => false end.

(** Between two calls a bridge is stopped exactly when no loop is running,
    and its finish flag is clear. *)
Definition consistent (r : Robot.t) : Prop :=
  Robot.stopped_ r = match Robot.active_loop r with None => true | Some _ => false end
  /\ Robot.finish_ r = false.

(** The events of one iteration of a loop, the oldest first. *)
Definition iteration_events (l : loop) : list event :=
  match l with
  | kTorqueControl =>
      [Lock read_mutex; Publish; Unlock read_mutex;
       Lock write_mutex; FetchCommand tau_slot; TestFinish; Unlock write_mutex]
  | kVelocityControl =>
      [Lock read_mutex; Publish; Unlock read_mutex;
       Lock write_mutex; FetchCommand vel_slot; TestFinish; Unlock write_mutex]
  | kReading => [Lock read_mutex; Publish; Unlock read_mutex; TestFinish]
  end.

(** The events a call of [stopRobot] adds, the oldest first: the finish flag
    is set, the loop runs its last iteration, the thread is joined, and the
    flag is cleared. *)
Definition stop_events (r : Robot.t) : list event :=
  match Robot.active_loop r with
  | Some l => [SetFinish true] ++ iteration_events l ++ [Join l; SetFinish false]
  | None => []
  end.


Definition mutex_eqb (m n : mutex) : bool :=
  match m, n with
  | read_mutex, read_mutex | write_mutex, write_mutex => true
  | _, _ => false
  end.

(** The mutexes held after a run of events (the oldest first), starting from
    the ones in [held]. *)
Fixpoint holding (held : list mutex) (es : list event) : list mutex :=
  match es with
  | [] => held
  | Lock m :: es' => holding (m :: held) es'
  | Unlock m :: es' => holding (filter (fun n => negb (mutex_eqb m n)) held) es'
  | _ :: es' => holding held es'
  end.

(** The accesses to shared data in a run of events, each with the mutexes
    held when it happens. *)
Fixpoint accesses (held : list mutex) (es : list event) : list (event * list mutex) :=
  match es with
  | [] => []
  | Lock m :: es' => accesses (m :: held) es'
  | Unlock m :: es' => accesses (filter (fun n => negb (mutex_eqb m n)) held) es'
  | (Publish | Snapshot | StoreCommand _ | FetchCommand _ | TestFinish) as e :: es' =>
      (e, held) :: accesses held es'
  | _ :: es' => accesses held es'
  end.

(** The events that copy a whole structure or array in or out of the bridge. *)
Definition is_copy (e : event) : bool :=
  match e with
  | Publish | Snapshot | StoreCommand _ | FetchCommand _ => true
  | _ => false
  end.

(** The largest number of mutexes held at once during a run of events. *)
Fixpoint most_held (held : list mutex) (es : list event) : nat :=
  match es with
  | [] => length held
  | Lock m :: es' => Nat.max (length held) (most_held (m :: held) es')
  | Unlock m :: es' =>
      Nat.max (length held) (most_held (filter (fun n => negb (mutex_eqb m n)) held) es')
  | _ :: es' => most_held held es'
  end.

(** [on_activate] with the loop thread running: the thread started by
    [initializeContinuousReading] may complete some iterations before the
    caller takes its snapshot. *)
Definition on_activate_concurrent (states : list RobotState)
  : M FrankaHardwareInterface.t CallbackReturn.t :=
  FrankaHardwareInterface.call Robot.initializeContinuousReading;;
  FrankaHardwareInterface.call (loop_iterations states);;
  modify (FrankaHardwareInterface.set_hw_commands_ (fill 0%float));;
  FrankaHardwareInterface.read;;
  FrankaHardwareInterface.RCLCPP INFO "Started" [];;
  mret CallbackReturn.SUCCESS.

(** Some measured state other than the zero state. *)
Definition some_state : RobotState :=
  mkRobotState (fill 1%float) (fill 2%float) (fill 3%float).

(** Some concrete surroundings: the arm measures [some_state] throughout. *)
Definition realtime_host : Host := mkHost true (fun _ => None) (fun _ => some_state).
Definition unreachable_host : Host :=
  mkHost false (fun _ => Some "libfranka: Connection timeout") (fun _ => some_state).

(** The bridge as its constructor leaves it on a host with a real-time
    kernel, connected to the arm at 172.16.0.2. *)
Definition connected_bridge : Robot.t :=
  Robot.mk None (mkfranka_Robot "172.16.0.2" kEnforce (fun _ => some_state)) false true false RobotState_default
    (fill 0%float) (fill 0%float) [].

(** An adapter before [on_init], with nothing claimed and nothing running. *)
Definition blank_adapter : FrankaHardwareInterface.t :=
  FrankaHardwareInterface.mk (mkHardwareInfo [] ∅) None
    (fill 0%float) (fill 0%float) (fill 0%float) (fill 0%float) false false [].

(** An adapter that holds a bridge, with a command in its command slots. *)
Definition adapter_with (r : Robot.t) (command : array7) : FrankaHardwareInterface.t :=
  FrankaHardwareInterface.mk (mkHardwareInfo [] ∅) (Some r)
    command (fill 0%float) (fill 0%float) (fill 0%float) false false [].

(** The description of a joint as the package expects it. *)
Definition panda_joint (i : nat) : ComponentInfo :=
  mkComponentInfo ("panda_joint" ++ to_string i)
    [mkInterfaceInfo HW_IF_VELOCITY]
    [mkInterfaceInfo HW_IF_POSITION; mkInterfaceInfo HW_IF_VELOCITY;
     mkInterfaceInfo HW_IF_EFFORT].

(** A joint whose three state interfaces are declared in the order effort,
    velocity, position. *)
Definition misordered_joint : ComponentInfo :=
  mkComponentInfo "panda_joint1"
    [mkInterfaceInfo HW_IF_VELOCITY]
    [mkInterfaceInfo HW_IF_EFFORT; mkInterfaceInfo HW_IF_VELOCITY;
     mkInterfaceInfo HW_IF_POSITION].

(** Seven joints, the first of them misordered, and the address of the arm. *)
Definition misordered_info : HardwareInfo :=
  mkHardwareInfo (misordered_joint :: map panda_joint (seq 2 6))
    {[ "robot_ip" := "172.16.0.2" ]}.

(** Six well-formed joints and the address of the arm. *)
Definition six_joints_info : HardwareInfo :=
  mkHardwareInfo (map panda_joint (seq 1 6)) {[ "robot_ip" := "172.16.0.2" ]}.

(** The names of the velocity interfaces of the first [n] joints, as the
    controller manager spells them. *)
Definition velocity_interfaces (n : nat) : list string :=
  map (fun i => "panda_joint" ++ to_string i ++ "/" ++ HW_IF_VELOCITY) (seq 1 n).

(** The checks of [on_init] on a joint that end in [return]: the number of
    command interfaces, the name of the command interface, and the number of
    state interfaces. *)
Definition passes_returning_checks (joint : ComponentInfo) : bool :=
  match command_interfaces joint with
  | [c0] => String.eqb (interface_name c0) HW_IF_VELOCITY
            && (length (state_interfaces joint) =? 3)%nat
  | _ => false
  end.

(** An adapter with some more entries in its trace. *)
Definition logged (extra : list io) (a : FrankaHardwareInterface.t) : FrankaHardwareInterface.t :=
  FrankaHardwareInterface.mk
    (FrankaHardwareInterface.info_ a) (FrankaHardwareInterface.robot_ a)
    (FrankaHardwareInterface.hw_commands_ a) (FrankaHardwareInterface.hw_positions_ a)
    (FrankaHardwareInterface.hw_velocities_ a) (FrankaHardwareInterface.hw_efforts_ a)
    (FrankaHardwareInterface.velocity_interface_claimed_ a)
    (FrankaHardwareInterface.velocity_interface_running_ a)
    (extra ++ FrankaHardwareInterface.io_ a)%list.

Definition is_fatal_log (e : io) : bool :=
  match e with Log FATAL _ _ => true | _ => false end.

(** A bridge that runs the reading loop, as [on_activate] leaves it. *)
Definition reading_bridge : Robot.t :=
  Robot.mk (Some (mkThread kReading true)) (mkfranka_Robot "172.16.0.2" kEnforce (fun _ => some_state)) false false false
    RobotState_default (fill 0%float) (fill 0%float) [Spawn kReading].

(** An activated adapter on which a controller has claimed the velocity
    interfaces and the switch has not been performed yet. *)
Definition claimed_adapter : FrankaHardwareInterface.t :=
  FrankaHardwareInterface.mk (mkHardwareInfo [] ∅) (Some reading_bridge)
    (fill 0%float) (fill 0%float) (fill 0%float) (fill 0%float) true false [].

(** The array of the adapter a pointer points into. *)
Definition array_of (m : member) (a : FrankaHardwareInterface.t) : array7 :=
  match m with
  | positions => FrankaHardwareInterface.hw_positions_ a
  | velocities => FrankaHardwareInterface.hw_velocities_ a
  | efforts => FrankaHardwareInterface.hw_efforts_ a
  | commands => FrankaHardwareInterface.hw_commands_ a
  end.

(** [Handle::get_value]: the value the pointer of a handle points to, if it
    points into its array. *)
Definition get_value (h : Handle) (a : FrankaHardwareInterface.t) : option double :=
  elements (array_of (target (value_ptr h)) a) !! offset (value_ptr h).

(** An array with one element replaced. *)
Definition store (x : array7) (i : nat) (v : double) : array7 :=
  match i with
  | 0 => Array7 v (at1 x) (at2 x) (at3 x) (at4 x) (at5 x) (at6 x)
  | 1 => Array7 (at0 x) v (at2 x) (at3 x) (at4 x) (at5 x) (at6 x)
  | 2 => Array7 (at0 x) (at1 x) v (at3 x) (at4 x) (at5 x) (at6 x)
  | 3 => Array7 (at0 x) (at1 x) (at2 x) v (at4 x) (at5 x) (at6 x)
  | 4 => Array7 (at0 x) (at1 x) (at2 x) (at3 x) v (at5 x) (at6 x)
  | 5 => Array7 (at0 x) (at1 x) (at2 x) (at3 x) (at4 x) v (at6 x)
  | 6 => Array7 (at0 x) (at1 x) (at2 x) (at3 x) (at4 x) (at5 x) v
  | _ => x
  end.

(** [CommandInterface::set_value] on a handle into the command array: the
    controller writes a command through the pointer it was given. *)
Definition set_command (i : nat) (v : double) (a : FrankaHardwareInterface.t)
  : FrankaHardwareInterface.t :=
  FrankaHardwareInterface.set_hw_commands_
    (store (FrankaHardwareInterface.hw_commands_ a) i v) a.

(** The handles [export_state_interfaces] builds for a list of joints of
    which the first has index [i]. *)
Fixpoint state_handles (i : nat) (js : list ComponentInfo) : list Handle :=
  match js with
  | [] => []
  | joint :: js' =>
      mkHandle (name joint) HW_IF_POSITION (mkPointer positions i)
      :: mkHandle (name joint) HW_IF_VELOCITY (mkPointer velocities i)
      :: mkHandle (name joint) HW_IF_EFFORT (mkPointer efforts i)
      :: state_handles (S i) js'
  end.

(** The handles [export_command_interfaces] builds. *)
Fixpoint command_handles (i : nat) (js : list ComponentInfo) : list Handle :=
  match js with
  | [] => []
  | joint :: js' =>
      mkHandle (name joint) HW_IF_VELOCITY (mkPointer commands i)
      :: command_handles (S i) js'
  end.

(** A bridge that runs the velocity loop, as the mode switch leaves it. *)
Definition velocity_bridge : Robot.t :=
  Robot.mk (Some (mkThread kVelocityControl true)) (mkfranka_Robot "172.16.0.2" kEnforce (fun _ => some_state)) false false true
    RobotState_default (fill 0%float) (fill 0%float)
    [Spawn kVelocityControl;
     SetJointImpedance (Array7 2000 2000 2000 2000 1000 1000 1000)%float].

(** Seven well-formed joints and the address of the arm. *)
Definition panda_info : HardwareInfo :=
  mkHardwareInfo (map panda_joint (seq 1 7)) {[ "robot_ip" := "172.16.0.2" ]}.

(** Seven well-formed joints and no address. *)
Definition no_address_info : HardwareInfo :=
  mkHardwareInfo (map panda_joint (seq 1 7)) ∅.

(** Eight well-formed joints. *)
Definition eight_joints_info : HardwareInfo :=
  mkHardwareInfo (map panda_joint (seq 1 8)) {[ "robot_ip" := "172.16.0.2" ]}.


(** Two adapters with the same description and the same four arrays. *)
Definition same_slots (a a' : FrankaHardwareInterface.t) : Prop :=
  FrankaHardwareInterface.info_ a' = FrankaHardwareInterface.info_ a
  /\ FrankaHardwareInterface.hw_commands_ a' = FrankaHardwareInterface.hw_commands_ a
  /\ FrankaHardwareInterface.hw_positions_ a' = FrankaHardwareInterface.hw_positions_ a
  /\ FrankaHardwareInterface.hw_velocities_ a' = FrankaHardwareInterface.hw_velocities_ a
  /\ FrankaHardwareInterface.hw_efforts_ a' = FrankaHardwareInterface.hw_efforts_ a.

(** ** Tactics *)

(** Run a member function of the bridge on a bridge given by its members. *)
Ltac run_cpp :=
  cbv [mbind mret M_bind M_ret bind ret get modify throw abort undefined hang assert
       Robot.write Robot.read Robot.stopRobot Robot.join Robot.iteration Robot.spawn
       Robot.lock_guard Robot.motion_finished Robot.values
       Robot.initializeTorqueControl Robot.initializeVelocityControl
       Robot.initializeContinuousReading Robot.isStopped Robot.destroy
       Robot.torque_callback Robot.velocity_callback Robot.reading_callback
       Robot.emit Robot.set_control_thread_ Robot.set_finish_ Robot.set_stopped_
       Robot.set_use_velocity_control_ Robot.set_current_state_
       Robot.set_tau_command_ Robot.set_vel_command_
       Robot.control_thread_ Robot.robot_ Robot.finish_ Robot.stopped_
       Robot.use_velocity_control_ Robot.current_state_ Robot.tau_command_
       Robot.vel_command_ Robot.trace_ Robot.active_loop body joinable negb].

(** Case analysis on a bridge whose control flow is decided by its flags,
    its thread and the loop the thread runs. *)
Ltac bridge_cases r :=
  destruct r as [[[[] []]|] ? [] [] [] ? ? ? ?].

(** Run a member function of the adapter on an adapter given by its members. *)
Ltac run_hw :=
  cbv [FrankaHardwareInterface.read FrankaHardwareInterface.write
       FrankaHardwareInterface.on_activate FrankaHardwareInterface.on_deactivate
       FrankaHardwareInterface.perform_command_mode_switch
       FrankaHardwareInterface.call FrankaHardwareInterface.RCLCPP
       FrankaHardwareInterface.emit FrankaHardwareInterface.set_info_
       FrankaHardwareInterface.set_robot_ FrankaHardwareInterface.set_hw_commands_
       FrankaHardwareInterface.set_hw_positions_ FrankaHardwareInterface.set_hw_velocities_
       FrankaHardwareInterface.set_hw_efforts_
       FrankaHardwareInterface.set_velocity_interface_claimed_
       FrankaHardwareInterface.set_velocity_interface_running_
       FrankaHardwareInterface.info_ FrankaHardwareInterface.robot_
       FrankaHardwareInterface.hw_commands_ FrankaHardwareInterface.hw_positions_
       FrankaHardwareInterface.hw_velocities_ FrankaHardwareInterface.hw_efforts_
       FrankaHardwareInterface.velocity_interface_claimed_
       FrankaHardwareInterface.velocity_interface_running_ FrankaHardwareInterface.io_
       andb];
  run_cpp.

(** One step through the body of the loop over the joints. *)
Ltac step_joint :=
  repeat progress
    (unfold mbind, M_bind, bind, mret, M_ret, ret, modify,
       FrankaHardwareInterface.subscript, FrankaHardwareInterface.RCLCPP, undefined;
     cbn [lookup list_lookup length Nat.eqb negb andb]).

(** The members of an adapter given by its constructor. *)
Ltac hw_members :=
  cbn [FrankaHardwareInterface.info_ FrankaHardwareInterface.robot_
       FrankaHardwareInterface.hw_commands_ FrankaHardwareInterface.hw_positions_
       FrankaHardwareInterface.hw_velocities_ FrankaHardwareInterface.hw_efforts_
       FrankaHardwareInterface.velocity_interface_claimed_
       FrankaHardwareInterface.velocity_interface_running_ FrankaHardwareInterface.io_].

(** ** Facts about the bridge *)

Lemma new_succeeds_iff (host : Host) (robot_ip : string) :
  (exists r, Robot.new host robot_ip = inr r) <-> handshake host robot_ip = None.
Proof.
  unfold Robot.new. destruct (handshake host robot_ip); split; intros H.
  - destruct H as [r H]. discriminate.
  - discriminate.
  - reflexivity.
  - eexists. reflexivity.
Qed.

Lemma new_consistent (host : Host) (robot_ip : string) (r : Robot.t) :
  Robot.new host robot_ip = inr r -> consistent r.
Proof.
  unfold Robot.new. destruct (handshake host robot_ip); [discriminate|].
  intros [= <-]. split; reflexivity.
Qed.


(** Every action keeps a consistent bridge consistent. *)
Lemma act_consistent (x : action) (r r' : Robot.t) :
  consistent r -> act x r = Returns tt r' -> consistent r'.
Proof.
  unfold consistent. intros [Hs Hf] H.
  destruct x; bridge_cases r; cbn in Hs, Hf; try discriminate;
    revert H; unfold act, loop_iteration; run_cpp;
    try match goal with |- context [match ?l with kTorqueControl => _ | _ => _ end] =>
      destruct l end;
    run_cpp; intros [= <-]; split; reflexivity.
Qed.

Lemma acts_consistent (xs : list action) (r r' : Robot.t) :
  consistent r -> acts xs r = Returns tt r' -> consistent r'.
Proof.
  revert r. induction xs as [|x xs IH]; intros r Hr H.
  - injection H as <-. exact Hr.
  - cbn [acts] in H. unfold mbind, M_bind, bind in H.
    destruct (act x r) as [[] r1| | | |] eqn:E; try discriminate.
    eapply IH; [eapply act_consistent; eassumption | exact H].
Qed.

(** No action but a write touches a command slot. *)
Lemma act_keeps_commands (x : action) (r r' : Robot.t) :
  is_write x = false -> act x r = Returns tt r' ->
  Robot.tau_command_ r' = Robot.tau_command_ r
  /\ Robot.vel_command_ r' = Robot.vel_command_ r.
Proof.
  intros Hx H.
  destruct x; try discriminate; bridge_cases r;
    revert H; unfold act, loop_iteration; run_cpp;
    try match goal with |- context [match ?l with kTorqueControl => _ | _ => _ end] =>
      destruct l end;
    run_cpp; try discriminate; intros [= <-]; split; reflexivity.
Qed.

Lemma acts_keep_commands (xs : list action) (r r' : Robot.t) :
  forallb (fun x => negb (is_write x)) xs = true -> acts xs r = Returns tt r' ->
  Robot.tau_command_ r' = Robot.tau_command_ r
  /\ Robot.vel_command_ r' = Robot.vel_command_ r.
Proof.
  revert r. induction xs as [|x xs IH]; intros r Hxs H.
  - injection H as <-. split; reflexivity.
  - cbn [forallb] in Hxs. apply andb_true_iff in Hxs as [Hx Hxs].
    apply negb_true_iff in Hx.
    cbn [acts] in H. unfold mbind, M_bind, bind in H.
    destruct (act x r) as [[] r1| | | |] eqn:E; try discriminate.
    destruct (act_keeps_commands x r r1 Hx E) as [Ht Hv].
    destruct (IH r1 Hxs H) as [Ht' Hv'].
    split; congruence.
Qed.

(** Once velocity control has been started, the flag that selects the slot
    stays set: nothing in the class clears it. *)
Lemma act_keeps_velocity_flag (x : action) (r r' : Robot.t) :
  Robot.use_velocity_control_ r = true -> act x r = Returns tt r' ->
  Robot.use_velocity_control_ r' = true.
Proof.
  intros Hu H.
  destruct x; bridge_cases r; cbn in Hu; try discriminate;
    revert H; unfold act, loop_iteration; run_cpp;
    try match goal with |- context [match ?l with kTorqueControl => _ | _ => _ end] =>
      destruct l end;
    run_cpp; try discriminate; intros [= <-]; reflexivity.
Qed.

(** C10: after the construction of the bridge both command slots hold seven
    zeros, they still do after any actions that are not writes, and the
    callback of the torque loop and the one of the velocity loop then hand
    seven zeros to the arm. *)
Theorem new_commands_zero (host : Host) (robot_ip : string) (r : Robot.t) :
  Robot.new host robot_ip = inr r ->
  Robot.tau_command_ r = fill 0%float
  /\ Robot.vel_command_ r = fill 0%float
  /\ forall (xs : list action) (r' : Robot.t) (state : RobotState),
       forallb (fun x => negb (is_write x)) xs = true ->
       acts xs r = Returns tt r' ->
       Robot.tau_command_ r' = fill 0%float
       /\ Robot.vel_command_ r' = fill 0%float
       /\ (exists fin r'',
             Robot.torque_callback state r' = Returns (Robot.mkOutput (fill 0%float) fin) r'')
       /\ (exists fin r'',
             Robot.velocity_callback state r' = Returns (Robot.mkOutput (fill 0%float) fin) r'').
Proof.
  intros Hnew.
  assert (Robot.tau_command_ r = fill 0%float /\ Robot.vel_command_ r = fill 0%float)
    as [Ht Hv].
  { unfold Robot.new in Hnew. destruct (handshake host robot_ip); [discriminate|].
    injection Hnew as <-. split; reflexivity. }
  split; [exact Ht|]. split; [exact Hv|].
  intros xs r' state Hxs Hrun.
  destruct (acts_keep_commands xs r r' Hxs Hrun) as [Ht' Hv'].
  rewrite Ht in Ht'. rewrite Hv in Hv'.
  split; [exact Ht'|]. split; [exact Hv'|].
  destruct r' as [th fr fin st uvc cs tau vel tr]. cbn in Ht', Hv'. subst tau vel.
  split; eexists; eexists; run_cpp; reflexivity.
Qed.

Lemma new_commands_zero_witness :
  Robot.new realtime_host "172.16.0.2" = inr connected_bridge
  /\ Robot.tau_command_ connected_bridge = fill 0%float
  /\ Robot.vel_command_ connected_bridge = fill 0%float.
Proof.
  split; [reflexivity|].
  pose proof (new_commands_zero realtime_host "172.16.0.2" connected_bridge eq_refl)
    as (Ht & Hv & _).
  split; [exact Ht | exact Hv].
Defined.

(** C1, at the input on which the code departs from it: a connected bridge
    is taken through velocity control, a stop and torque control; the torque
    loop is the one running, yet a write of seven ones lands in the velocity
    slot, the torque slot keeps its zeros, and the torque callback goes on
    handing zeros to the arm. *)
Theorem write_in_torque_mode_after_velocity_mode :
  exists r1 r2 r3 : Robot.t,
    acts [InitializeVelocityControl; StopRobot; InitializeTorqueControl] connected_bridge
      = Returns tt r1
    /\ Robot.active_loop r1 = Some kTorqueControl
    /\ Robot.write (fill 1%float) r1 = Returns tt r2
    /\ Robot.active_loop r2 = Some kTorqueControl
    /\ Robot.vel_command_ r2 = fill 1%float
    /\ Robot.tau_command_ r2 = fill 0%float
    /\ Robot.torque_callback RobotState_default r2
         = Returns (Robot.mkOutput (fill 0%float) false) r3.
Proof.
  do 3 eexists.
  repeat match goal with |- _ /\ _ => split end; vm_compute; exact eq_refl.
Qed.

(** Before velocity control is first started, a write in torque mode does
    reach the torque slot. *)
Lemma write_in_torque_mode_first (command : array7) :
  exists r1 r2 : Robot.t,
    acts [InitializeTorqueControl] connected_bridge = Returns tt r1
    /\ Robot.active_loop r1 = Some kTorqueControl
    /\ Robot.write command r1 = Returns tt r2
    /\ Robot.tau_command_ r2 = command.
Proof.
  do 2 eexists.
  repeat match goal with |- _ /\ _ => split end; vm_compute; exact eq_refl.
Qed.

(** In velocity mode a write always reaches the velocity slot: the loop can
    only have been started by [initializeVelocityControl], which sets the
    flag. *)
Lemma initializeVelocityControl_sets_flag (r r' : Robot.t) :
  Robot.initializeVelocityControl r = Returns tt r' ->
  Robot.use_velocity_control_ r' = true /\ Robot.active_loop r' = Some kVelocityControl.
Proof.
  bridge_cases r; run_cpp; try discriminate; intros [= <-]; split; reflexivity.
Qed.



(** When the finish flag is set, an iteration of any of the three loops
    tells the manufacturer library to leave the loop, so that the thread
    comes to its end and [join] returns. *)
Lemma callbacks_observe_finish (state : RobotState) (r : Robot.t) :
  Robot.finish_ r = true ->
  (exists r', Robot.torque_callback state r
     = Returns (Robot.mkOutput (Robot.tau_command_ r) true) r')
  /\ (exists r', Robot.velocity_callback state r
     = Returns (Robot.mkOutput (Robot.vel_command_ r) true) r')
  /\ (exists r', Robot.reading_callback state r = Returns false r').
Proof.
  destruct r as [th fr fin st uvc cs tau vel tr]. cbn. intros ->.
  repeat split; eexists; run_cpp; reflexivity.
Qed.

(** A loop is started only on a stopped bridge: on a running one the
    assertion fails. *)
Lemma initialize_needs_stopped (r : Robot.t) :
  Robot.isStopped r = false ->
  Robot.initializeTorqueControl r = Aborts
  /\ Robot.initializeVelocityControl r = Aborts
  /\ Robot.initializeContinuousReading r = Aborts.
Proof.
  destruct r as [th fr fin st uvc cs tau vel tr]. cbn. intros ->.
  repeat split.
Qed.

(** C8: in an iteration of the torque loop and of the velocity loop the
    measured state is published under the state mutex, that mutex is released,
    and only then is the command mutex taken, under which the whole command
    slot is copied into the output; the two mutexes are never held together,
    and under each of them exactly one array or structure is copied. *)
Theorem callback_publishes_then_fetches (state : RobotState) (r : Robot.t) :
  let iteration (s : slot) :=
    [Lock read_mutex; Publish; Unlock read_mutex;
     Lock write_mutex; FetchCommand s; TestFinish; Unlock write_mutex] in
  (exists r' : Robot.t,
     Robot.torque_callback state r
       = Returns (Robot.mkOutput (Robot.tau_command_ r) (Robot.finish_ r)) r'
     /\ Robot.current_state_ r' = state
     /\ Robot.trace_ r' = (rev (iteration tau_slot) ++ Robot.trace_ r)%list)
  /\ (exists r' : Robot.t,
     Robot.velocity_callback state r
       = Returns (Robot.mkOutput (Robot.vel_command_ r) (Robot.finish_ r)) r'
     /\ Robot.current_state_ r' = state
     /\ Robot.trace_ r' = (rev (iteration vel_slot) ++ Robot.trace_ r)%list)
  /\ forall s : slot,
       most_held [] (iteration s) = 1
       /\ holding [] (iteration s) = []
       /\ accesses [] (iteration s)
          = [(Publish, [read_mutex]); (FetchCommand s, [write_mutex]);
             (TestFinish, [write_mutex])]
       /\ filter (fun x => is_copy (fst x)) (accesses [] (iteration s))
          = [(Publish, [read_mutex]); (FetchCommand s, [write_mutex])]
       /\ holding [] [Lock read_mutex; Publish; Unlock read_mutex] = [].
Proof.
  destruct r as [th fr fin st uvc cs tau vel tr].
  split; [|split].
  - eexists. run_cpp. split; [reflexivity|]. split; reflexivity.
  - eexists. run_cpp. split; [reflexivity|]. split; reflexivity.
  - intros s. cbn.
    split; [reflexivity|]. split; [reflexivity|]. split; [reflexivity|].
    split; reflexivity.
Qed.

(** The finish flag is not guarded by a mutex: the reading loop reads it
    after it has released the state mutex, and [stopRobot] sets it while it
    holds none. *)
Lemma finish_flag_is_not_guarded (state : RobotState) (r : Robot.t) :
  let iteration := [Lock read_mutex; Publish; Unlock read_mutex; TestFinish] in
  (exists r' : Robot.t,
     Robot.reading_callback state r = Returns (negb (Robot.finish_ r)) r'
     /\ Robot.current_state_ r' = state
     /\ Robot.trace_ r' = (rev iteration ++ Robot.trace_ r)%list)
  /\ accesses [] iteration = [(Publish, [read_mutex]); (TestFinish, [])]
  /\ forall l : loop, holding [] [SetFinish true; Join l; SetFinish false] = [].
Proof.
  destruct r as [th fr fin st uvc cs tau vel tr].
  split; [|split].
  - eexists. run_cpp. split; [reflexivity|]. split; reflexivity.
  - reflexivity.
  - intros l. reflexivity.
Qed.

(** ** Facts about the adapter *)




(** A velocity interface is a name in which [velocity] occurs somewhere. *)
Lemma is_velocity_interface_examples :
  FrankaHardwareInterface.is_velocity_interface "panda_joint1/velocity" = true
  /\ FrankaHardwareInterface.is_velocity_interface "panda_joint1/position" = false
  /\ FrankaHardwareInterface.is_velocity_interface "velocity_stage/position" = true
  /\ count_if FrankaHardwareInterface.is_velocity_interface (velocity_interfaces 3) = 3
  /\ count_if FrankaHardwareInterface.is_velocity_interface (velocity_interfaces 7) = 7.
Proof.
  repeat split; vm_compute; exact eq_refl.
Qed.








(** What [perform_command_mode_switch] does on an adapter that holds a
    consistent bridge, by the two flags. *)
Lemma perform_command_mode_switch_cases
    (start_interfaces stop_interfaces : list string)
    (a : FrankaHardwareInterface.t) (r : Robot.t)
    (Hr : FrankaHardwareInterface.robot_ a = Some r) (Hc : consistent r) :
  let perform :=
    FrankaHardwareInterface.perform_command_mode_switch start_interfaces stop_interfaces a in
  (FrankaHardwareInterface.velocity_interface_running_ a = false ->
   FrankaHardwareInterface.velocity_interface_claimed_ a = true ->
   exists (r1 r2 : Robot.t) (a' : FrankaHardwareInterface.t),
     Robot.stopRobot r = Returns tt r1
     /\ Robot.isStopped r1 = true
     /\ Robot.active_loop r1 = None
     /\ Robot.initializeVelocityControl r1 = Returns tt r2
     /\ Robot.active_loop r2 = Some kVelocityControl
     /\ Robot.isStopped r2 = false
     /\ Robot.trace_ r2
        = (rev (stop_events r ++
                [SetJointImpedance (Array7 2000 2000 2000 2000 1000 1000 1000)%float;
                 Spawn kVelocityControl]) ++ Robot.trace_ r)%list
     /\ perform = Returns return_type.OK a'
     /\ FrankaHardwareInterface.robot_ a' = Some r2
     /\ FrankaHardwareInterface.velocity_interface_running_ a' = true
     /\ FrankaHardwareInterface.velocity_interface_claimed_ a' = true
     /\ FrankaHardwareInterface.io_ a' = FrankaHardwareInterface.io_ a
     /\ same_slots a a')
  /\ (FrankaHardwareInterface.velocity_interface_running_ a = true ->
      FrankaHardwareInterface.velocity_interface_claimed_ a = false ->
      exists (r1 r2 : Robot.t) (a' : FrankaHardwareInterface.t),
        Robot.stopRobot r = Returns tt r1
        /\ Robot.isStopped r1 = true
        /\ Robot.active_loop r1 = None
        /\ Robot.initializeContinuousReading r1 = Returns tt r2
        /\ Robot.active_loop r2 = Some kReading
        /\ Robot.isStopped r2 = false
        /\ Robot.trace_ r2
           = (rev (stop_events r ++ [Spawn kReading]) ++ Robot.trace_ r)%list
        /\ perform = Returns return_type.OK a'
        /\ FrankaHardwareInterface.robot_ a' = Some r2
        /\ FrankaHardwareInterface.velocity_interface_running_ a' = false
        /\ FrankaHardwareInterface.velocity_interface_claimed_ a' = false
        /\ FrankaHardwareInterface.io_ a' = FrankaHardwareInterface.io_ a
        /\ same_slots a a')
  /\ (FrankaHardwareInterface.velocity_interface_running_ a
      = FrankaHardwareInterface.velocity_interface_claimed_ a ->
      perform = Returns return_type.OK a).
Proof.
  cbv zeta. destruct Hc as [Hs Hf].
  destruct a as [info rb cmd pos vel eff claimed running io].
  cbn in Hr. subst rb.
  repeat match goal with |- _ /\ _ => split end.
  - cbn. intros -> ->.
    bridge_cases r; cbn in Hs, Hf; try discriminate;
      try match goal with l : loop |- _ => destruct l end;
      do 3 eexists;
      (split; [run_cpp; reflexivity|]); (split; [reflexivity|]); (split; [reflexivity|]);
      (split; [run_cpp; reflexivity|]); (split; [reflexivity|]); (split; [reflexivity|]);
      (split; [reflexivity|]);
      (split; [run_hw; reflexivity|]);
      unfold same_slots; repeat split.
  - cbn. intros -> ->.
    bridge_cases r; cbn in Hs, Hf; try discriminate;
      try match goal with l : loop |- _ => destruct l end;
      do 3 eexists;
      (split; [run_cpp; reflexivity|]); (split; [reflexivity|]); (split; [reflexivity|]);
      (split; [run_cpp; reflexivity|]); (split; [reflexivity|]); (split; [reflexivity|]);
      (split; [reflexivity|]);
      (split; [run_hw; reflexivity|]);
      unfold same_slots; repeat split.
  - cbn. intros ->. destruct claimed; run_hw; reflexivity.
Qed.


(** C9: [perform_command_mode_switch] does not look at its arguments: any
    two pairs of lists give the same outcome on the same adapter; whenever it
    returns, it returns [OK]; and on an adapter that holds a consistent bridge
    it does return. *)
Theorem perform_command_mode_switch_ignores_lists
    (start1 stop1 start2 stop2 : list string) (a : FrankaHardwareInterface.t) :
  FrankaHardwareInterface.perform_command_mode_switch start1 stop1 a
  = FrankaHardwareInterface.perform_command_mode_switch start2 stop2 a
  /\ (forall (result : return_type.t) (a' : FrankaHardwareInterface.t),
        FrankaHardwareInterface.perform_command_mode_switch start1 stop1 a
        = Returns result a' -> result = return_type.OK)
  /\ (forall r : Robot.t,
        FrankaHardwareInterface.robot_ a = Some r -> consistent r ->
        exists a' : FrankaHardwareInterface.t,
          FrankaHardwareInterface.perform_command_mode_switch start1 stop1 a
          = Returns return_type.OK a').
Proof.
  split; [reflexivity|]. split.
  - intros result a'.
    unfold FrankaHardwareInterface.perform_command_mode_switch.
    unfold mbind, M_bind, bind, get, mret, M_ret, ret.
    match goal with
    | |- match ?body with Returns _ _ => _ | _ => _ end = _ -> _ =>
        destruct body as [[] ?| | | |]
    end; try discriminate.
    intros [= <- _]. reflexivity.
  - intros r Hr Hc.
    pose proof (perform_command_mode_switch_cases start1 stop1 a r Hr Hc)
      as (Hstart & Hstop & Hsame).
    destruct (FrankaHardwareInterface.velocity_interface_running_ a) eqn:Er,
             (FrankaHardwareInterface.velocity_interface_claimed_ a) eqn:Ec.
    + eexists. apply Hsame. reflexivity.
    + destruct (Hstop eq_refl eq_refl) as (r1 & r2 & a' & _ & _ & _ & _ & _ & _ & _ & H & _).
      exists a'. exact H.
    + destruct (Hstart eq_refl eq_refl) as (r1 & r2 & a' & _ & _ & _ & _ & _ & _ & _ & H & _).
      exists a'. exact H.
    + eexists. apply Hsame. reflexivity.
Qed.

(** The last element of a list that starts with [x], whatever the default. *)
Lemma last_after_cons {A : Type} (l : list A) (x d : A) :
  List.last (x :: l) d = List.last l x.
Proof.
  revert x d. induction l as [|y l IH]; intros x d; [reflexivity|].
  change (List.last (x :: y :: l) d) with (List.last (y :: l) d).
  rewrite (IH y d), (IH y x). reflexivity.
Qed.

(** While the reading loop runs and the finish flag is clear, each of its
    iterations publishes the state it is given and changes nothing else but
    the trace: after some iterations the bridge holds the last state they
    published, or the one it held before if there was none. *)
Lemma reading_iterations_publish (states : list RobotState) :
  forall (fr : franka_Robot) (st uvc : bool) (cs : RobotState)
         (tau vel : array7) (tr : list event),
  exists tr' : list event,
    loop_iterations states
      (Robot.mk (Some (mkThread kReading true)) fr false st uvc cs tau vel tr)
    = Returns tt
        (Robot.mk (Some (mkThread kReading true)) fr false st uvc
           (List.last states cs) tau vel tr').
Proof.
  induction states as [|state states IH]; intros fr st uvc cs tau vel tr.
  - eexists. reflexivity.
  - destruct (IH fr st uvc state tau vel
                (TestFinish :: Unlock read_mutex :: Publish :: Lock read_mutex :: tr))
      as [tr' Htr'].
    exists tr'. cbn [loop_iterations].
    unfold mbind at 1, M_bind, bind.
    replace (loop_iteration state _) with
      (Returns (St := Robot.t) tt
         (Robot.mk (Some (mkThread kReading true)) fr false st uvc state tau vel
            (TestFinish :: Unlock read_mutex :: Publish :: Lock read_mutex :: tr)))
      by (unfold loop_iteration; run_cpp; reflexivity).
    rewrite Htr', (last_after_cons states state cs). reflexivity.
Qed.

(** What [on_activate] does on an adapter that holds a stopped consistent
    bridge, alone and with the reading loop completing some iterations before
    the snapshot is taken. *)
Lemma on_activate_cases (a : FrankaHardwareInterface.t) (r : Robot.t)
    (Hr : FrankaHardwareInterface.robot_ a = Some r) (Hc : consistent r)
    (Hs : Robot.isStopped r = true) :
  (exists (a' : FrankaHardwareInterface.t) (r' : Robot.t),
     FrankaHardwareInterface.on_activate a = Returns CallbackReturn.SUCCESS a'
     /\ FrankaHardwareInterface.robot_ a' = Some r'
     /\ Robot.active_loop r' = Some kReading
     /\ Robot.trace_ r'
        = (rev [Spawn kReading; Lock read_mutex; Snapshot; Unlock read_mutex]
           ++ Robot.trace_ r)%list
     /\ FrankaHardwareInterface.hw_commands_ a' = fill 0%float
     /\ FrankaHardwareInterface.hw_positions_ a' = q (Robot.current_state_ r)
     /\ FrankaHardwareInterface.hw_velocities_ a' = dq (Robot.current_state_ r)
     /\ FrankaHardwareInterface.hw_efforts_ a' = tau_J (Robot.current_state_ r))
  /\ (forall states : list RobotState,
      exists (a' : FrankaHardwareInterface.t) (r' : Robot.t),
        on_activate_concurrent states a = Returns CallbackReturn.SUCCESS a'
        /\ FrankaHardwareInterface.robot_ a' = Some r'
        /\ Robot.active_loop r' = Some kReading
        /\ Robot.current_state_ r' = List.last states (Robot.current_state_ r)
        /\ FrankaHardwareInterface.hw_commands_ a' = fill 0%float
        /\ FrankaHardwareInterface.hw_positions_ a' = q (List.last states (Robot.current_state_ r))
        /\ FrankaHardwareInterface.hw_velocities_ a' = dq (List.last states (Robot.current_state_ r))
        /\ FrankaHardwareInterface.hw_efforts_ a' = tau_J (List.last states (Robot.current_state_ r)))
  /\ on_activate_concurrent [] a = FrankaHardwareInterface.on_activate a.
Proof.
  destruct Hc as [Hs' Hf].
  destruct a as [info rb cmd pos vel eff claimed running io].
  cbn in Hr. subst rb.
  destruct r as [th fr fin st uvc cs tau velc tr].
  cbn in Hs, Hf. subst fin st.
  assert (match th with Some t => joinable t = false | None => True end) as Hth.
  { destruct th as [[l []]|]; cbn in Hs'; try discriminate; exact I || reflexivity. }
  split; [|split].
  - destruct th as [[l []]|]; try discriminate; do 2 eexists;
      (split; [unfold FrankaHardwareInterface.on_activate; run_hw; reflexivity|]);
      repeat match goal with |- _ /\ _ => split end; reflexivity.
  - intros states.
    unfold on_activate_concurrent.
    destruct (reading_iterations_publish states fr false uvc cs tau velc (Spawn kReading :: tr))
      as [tr' Htr'].
    destruct th as [[l []]|]; try discriminate; do 2 eexists.
    all: split;
      [unfold mbind at 1, M_bind at 1, bind at 1;
       unfold FrankaHardwareInterface.call at 1;
       cbn [FrankaHardwareInterface.robot_];
       replace (Robot.initializeContinuousReading _) with
         (Returns (St := Robot.t) tt
            (Robot.mk (Some (mkThread kReading true)) fr false false uvc cs tau velc
               (Spawn kReading :: tr))) by (run_cpp; reflexivity);
       unfold mbind at 1, M_bind at 1, bind at 1;
       unfold FrankaHardwareInterface.call at 1, FrankaHardwareInterface.set_robot_ at 1;
       cbn [FrankaHardwareInterface.robot_];
       rewrite Htr'; run_hw; reflexivity|].
    all: repeat match goal with |- _ /\ _ => split end; reflexivity.
  - destruct th as [[l []]|]; try discriminate;
      unfold on_activate_concurrent, FrankaHardwareInterface.on_activate, loop_iterations;
      run_hw; reflexivity.
Qed.

(** C7: on an adapter that holds a stopped consistent bridge, [on_activate]
    starts the reading loop, zeroes the seven command slots, takes one
    snapshot of the bridge and copies it into the state slots, and returns
    success.  The snapshot is the last state the reading loop has published
    at that time, or the one the bridge held before if it has published none,
    which is the zero state for a bridge just constructed. *)
Theorem on_activate_reads_once (a : FrankaHardwareInterface.t) (r : Robot.t)
    (Hr : FrankaHardwareInterface.robot_ a = Some r) (Hc : consistent r)
    (Hs : Robot.isStopped r = true) :
  (exists (a' : FrankaHardwareInterface.t) (r' : Robot.t),
     FrankaHardwareInterface.on_activate a = Returns CallbackReturn.SUCCESS a'
     /\ FrankaHardwareInterface.robot_ a' = Some r'
     /\ Robot.active_loop r' = Some kReading
     /\ Robot.trace_ r'
        = (rev [Spawn kReading; Lock read_mutex; Snapshot; Unlock read_mutex]
           ++ Robot.trace_ r)%list
     /\ FrankaHardwareInterface.hw_commands_ a' = fill 0%float
     /\ FrankaHardwareInterface.hw_positions_ a' = q (Robot.current_state_ r)
     /\ FrankaHardwareInterface.hw_velocities_ a' = dq (Robot.current_state_ r)
     /\ FrankaHardwareInterface.hw_efforts_ a' = tau_J (Robot.current_state_ r))
  /\ (forall states : list RobotState,
      exists (a' : FrankaHardwareInterface.t) (r' : Robot.t),
        on_activate_concurrent states a = Returns CallbackReturn.SUCCESS a'
        /\ FrankaHardwareInterface.robot_ a' = Some r'
        /\ Robot.active_loop r' = Some kReading
        /\ Robot.current_state_ r' = List.last states (Robot.current_state_ r)
        /\ FrankaHardwareInterface.hw_commands_ a' = fill 0%float
        /\ FrankaHardwareInterface.hw_positions_ a' = q (List.last states (Robot.current_state_ r))
        /\ FrankaHardwareInterface.hw_velocities_ a' = dq (List.last states (Robot.current_state_ r))
        /\ FrankaHardwareInterface.hw_efforts_ a' = tau_J (List.last states (Robot.current_state_ r)))
  /\ on_activate_concurrent [] a = FrankaHardwareInterface.on_activate a
  /\ (forall (host : Host) (robot_ip : string),
        Robot.new host robot_ip = inr r -> Robot.current_state_ r = RobotState_default).
Proof.
  destruct (on_activate_cases a r Hr Hc Hs) as (Halone & Hloop & Hnone).
  split; [exact Halone|]. split; [exact Hloop|]. split; [exact Hnone|].
  intros host robot_ip. unfold Robot.new.
  destruct (handshake host robot_ip); [discriminate|]. intros [= <-]. reflexivity.
Qed.

(** The loop body of [on_init] only logs, and asks for an early return
    exactly when one of its three returning checks fails; the names of the
    state interfaces have no say in it. *)
Lemma check_joint_outcome (joint : ComponentInfo) (a : FrankaHardwareInterface.t) :
  exists extra : list io,
    FrankaHardwareInterface.check_joint joint a
    = Returns (if passes_returning_checks joint then None else Some CallbackReturn.ERROR)
        (logged extra a)
    /\ forallb is_fatal_log extra = true.
Proof.
  destruct a as [info rb cmd pos vel eff claimed running io].
  destruct joint as [n cmds states].
  unfold FrankaHardwareInterface.check_joint, passes_returning_checks.
  cbn [command_interfaces state_interfaces name].
  destruct cmds as [|c0 [|c1 cmds]];
    [eexists [_]; split; reflexivity | | eexists [_]; split; reflexivity].
  step_joint.
  destruct (String.eqb (interface_name c0) HW_IF_VELOCITY);
    [|eexists [_]; split; reflexivity].
  step_joint.
  destruct states as [|s0 [|s1 [|s2 [|s3 states]]]];
    try (eexists [_]; split; reflexivity).
  step_joint.
  destruct (String.eqb (interface_name s0) HW_IF_POSITION),
           (String.eqb (interface_name s1) HW_IF_VELOCITY),
           (String.eqb (interface_name s2) HW_IF_EFFORT);
    step_joint;
    first [ eexists []; split; reflexivity
          | eexists [_]; split; reflexivity
          | eexists [_; _]; split; reflexivity
          | eexists [_; _; _]; split; reflexivity ].
Qed.

Lemma logged_logged (extra extra' : list io) (a : FrankaHardwareInterface.t) :
  logged extra' (logged extra a) = logged (extra' ++ extra) a.
Proof.
  unfold logged. cbn. rewrite app_assoc. reflexivity.
Qed.

(** The loop over the joints only logs, and asks for an early return exactly
    when some joint fails one of the three returning checks. *)
Lemma check_joints_outcome (js : list ComponentInfo) :
  forall a : FrankaHardwareInterface.t,
  exists extra : list io,
    FrankaHardwareInterface.check_joints js a
    = Returns (if forallb passes_returning_checks js
               then None else Some CallbackReturn.ERROR)
        (logged extra a)
    /\ forallb is_fatal_log extra = true.
Proof.
  induction js as [|joint js IH]; intros a.
  - exists []. split; [destruct a; reflexivity | reflexivity].
  - destruct (check_joint_outcome joint a) as (extra & Hjoint & Hextra).
    cbn [FrankaHardwareInterface.check_joints forallb].
    unfold mbind at 1, M_bind at 1, bind at 1. rewrite Hjoint.
    destruct (passes_returning_checks joint); cbn [andb].
    + destruct (IH (logged extra a)) as (extra' & Hjs & Hextra').
      exists (extra' ++ extra)%list. split.
      * rewrite Hjs, logged_logged. reflexivity.
      * rewrite forallb_app, Hextra, Hextra'. reflexivity.
    + exists extra. split; [reflexivity | exact Hextra].
Qed.

(** With a number of joints other than seven [on_init] logs the mismatch
    and returns an error; nothing else happens. *)
Lemma on_init_joint_count (host : Host) (info : HardwareInfo) (a : FrankaHardwareInterface.t) :
  length (joints info) <> 7 ->
  FrankaHardwareInterface.on_init host info a
  = Returns CallbackReturn.ERROR
      (logged [Log FATAL "Got %ld joints. Expected %ld." [num (length (joints info)); num 7]]
         (FrankaHardwareInterface.set_info_ info a)).
Proof.
  intros H. apply Nat.eqb_neq in H.
  destruct a as [info0 rb cmd pos vel eff claimed running io].
  unfold FrankaHardwareInterface.on_init, FrankaHardwareInterface.SystemInterface_on_init,
    kNumberOfJoints.
  run_hw. cbn [CallbackReturn.eqb]. rewrite H. reflexivity.
Qed.

(** With seven joints of which one fails a returning check, [on_init]
    returns an error after fatal logs only: the address of the arm is not
    looked up and no connection is attempted. *)
Lemma on_init_returning_checks (host : Host) (info : HardwareInfo)
    (a : FrankaHardwareInterface.t) :
  length (joints info) = 7 ->
  forallb passes_returning_checks (joints info) = false ->
  exists extra : list io,
    FrankaHardwareInterface.on_init host info a
    = Returns CallbackReturn.ERROR (logged extra (FrankaHardwareInterface.set_info_ info a))
    /\ forallb is_fatal_log extra = true.
Proof.
  intros H7 Hbad.
  destruct a as [info0 rb cmd pos vel eff claimed running io].
  destruct (check_joints_outcome (joints info)
              (FrankaHardwareInterface.mk info rb cmd pos vel eff claimed running io))
    as (extra & Hjs & Hextra).
  exists extra. split; [|exact Hextra].
  unfold FrankaHardwareInterface.on_init, FrankaHardwareInterface.SystemInterface_on_init,
    kNumberOfJoints.
  unfold mbind, M_bind, bind, mret, M_ret, ret, modify, get,
    FrankaHardwareInterface.set_info_.
  cbn [CallbackReturn.eqb negb]. hw_members.
  rewrite H7. cbn [Nat.eqb negb].
  rewrite Hjs, Hbad. reflexivity.
Qed.

(** With seven joints that pass the three returning checks, whatever the
    names and the order of their state interfaces, [on_init] goes on to look
    up the address of the arm, and with an address it enters the constructor
    of the bridge. *)
Lemma on_init_state_names_do_not_stop_it (host : Host) (info : HardwareInfo)
    (a : FrankaHardwareInterface.t) (robot_ip : string) :
  length (joints info) = 7 ->
  forallb passes_returning_checks (joints info) = true ->
  hardware_parameters info !! "robot_ip" = Some robot_ip ->
  FrankaHardwareInterface.robot_ a = None ->
  exists (result : CallbackReturn.t) (a' : FrankaHardwareInterface.t),
    FrankaHardwareInterface.on_init host info a = Returns result a'
    /\ In (Connect robot_ip) (FrankaHardwareInterface.io_ a')
    /\ (result = CallbackReturn.SUCCESS <-> handshake host robot_ip = None)
    /\ (handshake host robot_ip = None ->
        exists r : Robot.t,
          Robot.new host robot_ip = inr r
          /\ FrankaHardwareInterface.robot_ a' = Some r
          /\ consistent r /\ Robot.isStopped r = true).
Proof.
  intros H7 Hok Hip Hnone.
  destruct a as [info0 rb cmd pos vel eff claimed running io].
  cbn in Hnone. subst rb.
  destruct (check_joints_outcome (joints info)
              (FrankaHardwareInterface.mk info None cmd pos vel eff claimed running io))
    as (extra & Hjs & Hextra).
  unfold FrankaHardwareInterface.on_init, FrankaHardwareInterface.SystemInterface_on_init,
    kNumberOfJoints.
  unfold mbind, M_bind, bind, mret, M_ret, ret, modify, get,
    FrankaHardwareInterface.set_info_.
  cbn [CallbackReturn.eqb negb]. hw_members.
  rewrite H7. cbn [Nat.eqb negb].
  rewrite Hjs, Hok.
  unfold logged, FrankaHardwareInterface.emit. hw_members.
  rewrite Hip.
  unfold FrankaHardwareInterface.RCLCPP, FrankaHardwareInterface.make_robot, Robot.new.
  unfold mbind, M_bind, bind, mret, M_ret, ret, modify, get, FrankaHardwareInterface.emit.
  hw_members.
  destruct (handshake host robot_ip) as [what|]; do 2 eexists;
    (split; [reflexivity|]); cbn; (split; [tauto|]);
    (split; [split; congruence|]); intros Hh; try discriminate.
  eexists. split; [reflexivity|]. split; [reflexivity|].
  split; [split; reflexivity | reflexivity].
Qed.

(** C4, at the input on which the code departs from it: seven joints, the
    first with its state interfaces in the order effort, velocity, position.
    [on_init] logs two fatal messages about that joint (the second one names
    the first interface again, not the third) and goes on: it looks up the
    address, connects to the arm and returns success. *)
Theorem on_init_connects_with_misordered_state_interfaces :
  exists a' : FrankaHardwareInterface.t,
    FrankaHardwareInterface.on_init realtime_host misordered_info blank_adapter
    = Returns CallbackReturn.SUCCESS a'
    /\ FrankaHardwareInterface.robot_ a' = Some connected_bridge
    /\ rev (FrankaHardwareInterface.io_ a')
       = [Log FATAL "Joint '%s' has unexpected state interface '%s'. Expected '%s'"
            [str "panda_joint1"; str "effort"; str "position"];
          Log FATAL "Joint '%s' has unexpected state interface '%s'. Expected '%s'"
            [str "panda_joint1"; str "effort"; str "effort"];
          ParameterAt "robot_ip";
          Log INFO ("Connecting to robot at " ++ dquote ++ "%s" ++ dquote ++ " ...")
            [str "172.16.0.2"];
          Connect "172.16.0.2";
          Log INFO "Successfully connected to robot" []].
Proof.
  eexists.
  repeat match goal with |- _ /\ _ => split end; vm_compute; exact eq_refl.
Qed.

(** With six joints [on_init] stops at the count. *)
Lemma on_init_six_joints :
  FrankaHardwareInterface.on_init realtime_host six_joints_info blank_adapter
  = Returns CallbackReturn.ERROR
      (logged [Log FATAL "Got %ld joints. Expected %ld." [num 6; num 7]]
         (FrankaHardwareInterface.set_info_ six_joints_info blank_adapter)).
Proof.
  apply on_init_joint_count. vm_compute. discriminate.
Qed.

(** With a well-formed description and an arm that does not answer,
    [on_init] attempts the connection, logs its failure with the cause, and
    returns an error; the adapter holds no bridge. *)
Lemma on_init_unreachable :
  exists a' : FrankaHardwareInterface.t,
    FrankaHardwareInterface.on_init unreachable_host
      (mkHardwareInfo (map panda_joint (seq 1 7)) {[ "robot_ip" := "172.16.0.2" ]})
      blank_adapter
    = Returns CallbackReturn.ERROR a'
    /\ FrankaHardwareInterface.robot_ a' = None
    /\ rev (FrankaHardwareInterface.io_ a')
       = [ParameterAt "robot_ip";
          Log INFO ("Connecting to robot at " ++ dquote ++ "%s" ++ dquote ++ " ...")
            [str "172.16.0.2"];
          Connect "172.16.0.2";
          Log FATAL "Could not connect to robot" [];
          Log FATAL "%s" [str "libfranka: Connection timeout"]].
Proof.
  eexists.
  repeat match goal with |- _ /\ _ => split end; vm_compute; exact eq_refl.
Qed.


(** Seven velocity interfaces to start set the flag. *)
Lemma prepare_command_mode_switch_seven :
  FrankaHardwareInterface.prepare_command_mode_switch (velocity_interfaces 7) [] blank_adapter
  = Returns return_type.OK
      (FrankaHardwareInterface.set_velocity_interface_claimed_ true blank_adapter).
Proof.
  vm_compute. exact eq_refl.
Qed.


(** Activation of an adapter that holds a bridge just constructed: the
    state slots take the zero state. *)
Lemma on_activate_reads_once_witness :
  consistent connected_bridge
  /\ exists a' : FrankaHardwareInterface.t,
       FrankaHardwareInterface.on_activate (adapter_with connected_bridge (fill 1%float))
       = Returns CallbackReturn.SUCCESS a'
       /\ FrankaHardwareInterface.hw_commands_ a' = fill 0%float
       /\ FrankaHardwareInterface.hw_positions_ a' = fill 0%float.
Proof.
  split; [split; reflexivity|].
  pose proof (on_activate_reads_once (adapter_with connected_bridge (fill 1%float))
                connected_bridge eq_refl (conj eq_refl eq_refl) eq_refl) as (H & _ & _).
  destruct H as (a' & r' & Hact & _ & _ & _ & Hcmd & Hpos & _).
  exists a'. split; [exact Hact|]. split; [exact Hcmd | exact Hpos].
Defined.

(** ** Further facts about the bridge *)

(** On a consistent bridge an action returns and leaves the bridge
    consistent, or it aborts; it never throws and is never undefined. *)
Lemma act_outcome (x : action) (r : Robot.t) :
  consistent r ->
  (exists r' : Robot.t, act x r = Returns tt r' /\ consistent r') \/ act x r = Aborts.
Proof.
  unfold consistent. intros [Hs Hf].
  destruct x; bridge_cases r; cbn in Hs, Hf; try discriminate;
    unfold act, loop_iteration; run_cpp;
    try match goal with |- context [match ?l with kTorqueControl => _ | _ => _ end] =>
      destruct l end;
    run_cpp;
    first [ right; reflexivity
          | left; eexists; split; [reflexivity | split; reflexivity] ].
Qed.

(** X1: whatever the owner of a bridge and its loop thread do to it after its
    construction, the outcome is a return that leaves the bridge consistent
    (stopped exactly when no loop thread is joinable, finish flag clear) or an
    abort; no sequence of actions throws or dereferences a null pointer. *)
Theorem bridge_stays_consistent (host : Host) (robot_ip : string) (r : Robot.t)
    (xs : list action) :
  Robot.new host robot_ip = inr r ->
  (exists r' : Robot.t, acts xs r = Returns tt r' /\ consistent r')
  \/ acts xs r = Aborts.
Proof.
  intros Hnew. apply new_consistent in Hnew. revert r Hnew.
  induction xs as [|x xs IH]; intros r Hr.
  - left. exists r. split; [reflexivity | exact Hr].
  - cbn [acts]. unfold mbind, M_bind, bind.
    destruct (act_outcome x r Hr) as [(r1 & -> & Hr1) | ->].
    + exact (IH r1 Hr1).
    + right. reflexivity.
Qed.

Lemma bridge_stays_consistent_witness :
  Robot.new realtime_host "172.16.0.2" = inr connected_bridge
  /\ exists r' : Robot.t,
       acts [InitializeContinuousReading; Iterate some_state; Read; StopRobot;
             InitializeVelocityControl; Write (fill 1%float); Iterate some_state]
         connected_bridge = Returns tt r'
       /\ consistent r'.
Proof.
  split; [reflexivity|].
  destruct (bridge_stays_consistent realtime_host "172.16.0.2" connected_bridge
              [InitializeContinuousReading; Iterate some_state; Read; StopRobot;
               InitializeVelocityControl; Write (fill 1%float); Iterate some_state]
              eq_refl) as [H | H].
  - exact H.
  - vm_compute in H. discriminate H.
Defined.

(** X2: on a consistent bridge each of the three loops can be started
    exactly when the bridge is stopped.  Then the bridge is no longer stopped,
    the loop started is the one running, and both command slots are as before;
    only the start of velocity control sets the flag that selects the slot.
    On a bridge that is not stopped the assertion fails. *)
Theorem initialize_starts_on_stopped_bridge (r : Robot.t) (Hr : consistent r) :
  (Robot.isStopped r = true ->
   (exists r', Robot.initializeTorqueControl r = Returns tt r'
      /\ Robot.active_loop r' = Some kTorqueControl /\ Robot.isStopped r' = false
      /\ consistent r'
      /\ Robot.use_velocity_control_ r' = Robot.use_velocity_control_ r
      /\ Robot.tau_command_ r' = Robot.tau_command_ r
      /\ Robot.vel_command_ r' = Robot.vel_command_ r)
   /\ (exists r', Robot.initializeVelocityControl r = Returns tt r'
      /\ Robot.active_loop r' = Some kVelocityControl /\ Robot.isStopped r' = false
      /\ consistent r'
      /\ Robot.use_velocity_control_ r' = true
      /\ Robot.tau_command_ r' = Robot.tau_command_ r
      /\ Robot.vel_command_ r' = Robot.vel_command_ r)
   /\ (exists r', Robot.initializeContinuousReading r = Returns tt r'
      /\ Robot.active_loop r' = Some kReading /\ Robot.isStopped r' = false
      /\ consistent r'
      /\ Robot.use_velocity_control_ r' = Robot.use_velocity_control_ r
      /\ Robot.tau_command_ r' = Robot.tau_command_ r
      /\ Robot.vel_command_ r' = Robot.vel_command_ r))
  /\ (Robot.isStopped r = false ->
      Robot.initializeTorqueControl r = Aborts
      /\ Robot.initializeVelocityControl r = Aborts
      /\ Robot.initializeContinuousReading r = Aborts).
Proof.
  destruct Hr as [Hs Hf].
  bridge_cases r; cbn in Hs, Hf; try discriminate; (split; [intros Hst|intros Hst]);
    cbn in Hst; try discriminate;
    repeat match goal with |- _ /\ _ => split end;
    try (eexists; split; [run_cpp; reflexivity|];
         repeat match goal with |- _ /\ _ => split end;
         first [reflexivity | split; reflexivity]);
    reflexivity.
Qed.

Lemma initialize_starts_on_stopped_bridge_witness :
  consistent connected_bridge
  /\ Robot.initializeVelocityControl connected_bridge = Returns tt velocity_bridge
  /\ consistent velocity_bridge
  /\ Robot.initializeTorqueControl velocity_bridge = Aborts.
Proof.
  assert (Hc : consistent connected_bridge) by (split; reflexivity).
  assert (Hv : consistent velocity_bridge) by (split; reflexivity).
  split; [exact Hc|]. split; [vm_compute; exact eq_refl|]. split; [exact Hv|].
  exact (proj1 (proj2 (initialize_starts_on_stopped_bridge velocity_bridge Hv) eq_refl)).
Defined.

(** X3: while a loop runs, the state handed to one of its iterations is the
    one a following [read] returns; the iteration and the read leave both
    command slots alone. *)
Theorem read_returns_published_state (state : RobotState) (r : Robot.t) (l : loop) :
  Robot.active_loop r = Some l ->
  exists r1 r2 : Robot.t,
    loop_iteration state r = Returns tt r1
    /\ Robot.read r1 = Returns state r2
    /\ Robot.current_state_ r2 = state
    /\ Robot.tau_command_ r2 = Robot.tau_command_ r
    /\ Robot.vel_command_ r2 = Robot.vel_command_ r
    /\ Robot.active_loop r2 = Some l.
Proof.
  intros Hl.
  destruct r as [[[b []]|] fr fin st uvc cs tau vel tr]; cbn in Hl; try discriminate.
  injection Hl as ->.
  destruct l; do 2 eexists;
    (split; [unfold loop_iteration; run_cpp; reflexivity|]);
    (split; [run_cpp; reflexivity|]);
    repeat match goal with |- _ /\ _ => split end; reflexivity.
Qed.

Lemma read_returns_published_state_witness :
  Robot.active_loop reading_bridge = Some kReading
  /\ exists r1 r2 : Robot.t,
       loop_iteration some_state reading_bridge = Returns tt r1
       /\ Robot.read r1 = Returns some_state r2.
Proof.
  split; [reflexivity|].
  destruct (read_returns_published_state some_state reading_bridge kReading eq_refl)
    as (r1 & r2 & H1 & H2 & _).
  exists r1, r2. split; [exact H1 | exact H2].
Defined.

(** X4: of two writes in a row the second one wins: the callback of the
    loop whose slot the flag selects returns the second command whole, and the
    other slot is as it was before the two writes. *)
Theorem last_write_wins (c1 c2 : array7) (state : RobotState) (r : Robot.t) :
  exists r1 r2 r3 : Robot.t,
    Robot.write c1 r = Returns tt r1
    /\ Robot.write c2 r1 = Returns tt r2
    /\ if Robot.use_velocity_control_ r
       then Robot.velocity_callback state r2
              = Returns (Robot.mkOutput c2 (Robot.finish_ r)) r3
            /\ Robot.tau_command_ r2 = Robot.tau_command_ r
       else Robot.torque_callback state r2
              = Returns (Robot.mkOutput c2 (Robot.finish_ r)) r3
            /\ Robot.vel_command_ r2 = Robot.vel_command_ r.
Proof.
  destruct r as [th fr fin st [] cs tau vel tr]; do 3 eexists;
    (split; [run_cpp; reflexivity|]); (split; [run_cpp; reflexivity|]);
    cbn [Robot.use_velocity_control_]; split; run_cpp; reflexivity.
Qed.

(** With the flag set, no action stores into the torque slot. *)
Lemma act_keeps_torque_slot (x : action) (r r' : Robot.t) :
  Robot.use_velocity_control_ r = true -> act x r = Returns tt r' ->
  Robot.tau_command_ r' = Robot.tau_command_ r.
Proof.
  intros Hu H.
  destruct x; bridge_cases r; cbn in Hu; try discriminate;
    revert H; unfold act, loop_iteration; run_cpp;
    try match goal with |- context [match ?l with kTorqueControl => _ | _ => _ end] =>
      destruct l end;
    run_cpp; try discriminate; intros [= <-]; reflexivity.
Qed.

(** X5: once velocity control has been started the flag that selects the
    slot stays set and the torque slot is frozen: whatever actions follow,
    stops and starts of any loop included, no write stores into it again. *)
Theorem torque_slot_frozen_after_velocity_control (xs : list action) (r r' : Robot.t) :
  Robot.use_velocity_control_ r = true ->
  acts xs r = Returns tt r' ->
  Robot.use_velocity_control_ r' = true
  /\ Robot.tau_command_ r' = Robot.tau_command_ r.
Proof.
  revert r. induction xs as [|x xs IH]; intros r Hu H.
  - injection H as <-. split; [exact Hu | reflexivity].
  - cbn [acts] in H. unfold mbind, M_bind, bind in H.
    destruct (act x r) as [[] r1| | | |] eqn:E; try discriminate.
    destruct (IH r1 (act_keeps_velocity_flag x r r1 Hu E) H) as [Hu' Ht'].
    split; [exact Hu'|]. rewrite Ht'. exact (act_keeps_torque_slot x r r1 Hu E).
Qed.

Lemma torque_slot_frozen_after_velocity_control_witness :
  Robot.use_velocity_control_ velocity_bridge = true
  /\ exists r' : Robot.t,
       acts [Write (fill 1%float); StopRobot; InitializeTorqueControl; Write (fill 2%float)]
         velocity_bridge = Returns tt r'
       /\ Robot.tau_command_ r' = fill 0%float.
Proof.
  split; [reflexivity|].
  eexists. split; [vm_compute; exact eq_refl|].
  eapply (torque_slot_frozen_after_velocity_control
            [Write (fill 1%float); StopRobot; InitializeTorqueControl; Write (fill 2%float)]
            velocity_bridge); [reflexivity | vm_compute; exact eq_refl].
Defined.

(** ** Further facts about the adapter *)

(** X6: while a loop runs, the state handed to one of its iterations is what
    the next [read] of the adapter copies into the state slots: the seven
    positions, velocities and torques of that state.  The read returns [OK]
    and leaves the command slots and the two flags of the adapter alone. *)
Theorem read_copies_published_state (state : RobotState)
    (a : FrankaHardwareInterface.t) (r : Robot.t) (l : loop) :
  FrankaHardwareInterface.robot_ a = Some r ->
  Robot.active_loop r = Some l ->
  exists a' : FrankaHardwareInterface.t,
    (FrankaHardwareInterface.call (loop_iteration state);;
     FrankaHardwareInterface.read) a = Returns return_type.OK a'
    /\ FrankaHardwareInterface.hw_positions_ a' = q state
    /\ FrankaHardwareInterface.hw_velocities_ a' = dq state
    /\ FrankaHardwareInterface.hw_efforts_ a' = tau_J state
    /\ FrankaHardwareInterface.hw_commands_ a' = FrankaHardwareInterface.hw_commands_ a
    /\ FrankaHardwareInterface.velocity_interface_claimed_ a'
       = FrankaHardwareInterface.velocity_interface_claimed_ a
    /\ FrankaHardwareInterface.velocity_interface_running_ a'
       = FrankaHardwareInterface.velocity_interface_running_ a.
Proof.
  intros Hr Hl.
  destruct a as [info rb cmd pos vel eff claimed running io]. cbn in Hr. subst rb.
  destruct r as [[[b []]|] fr fin st uvc cs tau velc tr]; cbn in Hl; try discriminate.
  injection Hl as ->.
  destruct l; eexists;
    (split; [unfold loop_iteration; run_hw; reflexivity|]);
    repeat match goal with |- _ /\ _ => split end; reflexivity.
Qed.

Lemma read_copies_published_state_witness :
  exists a' : FrankaHardwareInterface.t,
    (FrankaHardwareInterface.call (loop_iteration some_state);;
     FrankaHardwareInterface.read) claimed_adapter = Returns return_type.OK a'
    /\ FrankaHardwareInterface.hw_positions_ a' = fill 1%float.
Proof.
  destruct (read_copies_published_state some_state claimed_adapter reading_bridge kReading
              eq_refl eq_refl) as (a' & H & Hpos & _).
  exists a'. split; [exact H | exact Hpos].
Defined.

(** What [on_deactivate] does on an adapter that holds a consistent
    bridge. *)
Lemma on_deactivate_cases (a : FrankaHardwareInterface.t) (r : Robot.t) :
  FrankaHardwareInterface.robot_ a = Some r ->
  consistent r ->
  exists r' : Robot.t,
    Robot.stopRobot r = Returns tt r'
    /\ FrankaHardwareInterface.on_deactivate a
       = Returns CallbackReturn.SUCCESS
           (logged [Log INFO "Stopped" []]
              (FrankaHardwareInterface.set_robot_ (Some r')
                 (logged [Log INFO "trying to Stop..." []] a))).
Proof.
  intros Hr [Hs Hf].
  destruct a as [info rb cmd pos vel eff claimed running io]. cbn in Hr. subst rb.
  bridge_cases r; cbn in Hs, Hf; try discriminate; eexists;
    (split; [run_cpp; reflexivity|]);
    unfold FrankaHardwareInterface.on_deactivate, logged; run_hw; reflexivity.
Qed.

(** X7: on an adapter that holds a consistent bridge [on_deactivate]
    returns success and leaves the bridge stopped with no loop running and the
    finish flag clear.  It touches neither the slots nor the two flags of the
    adapter, so the running flag survives deactivation; and a second
    [on_deactivate] succeeds again. *)
Theorem on_deactivate_stops_the_loop (a : FrankaHardwareInterface.t) (r : Robot.t) :
  FrankaHardwareInterface.robot_ a = Some r ->
  consistent r ->
  exists (a' a'' : FrankaHardwareInterface.t) (r' : Robot.t),
    FrankaHardwareInterface.on_deactivate a = Returns CallbackReturn.SUCCESS a'
    /\ FrankaHardwareInterface.robot_ a' = Some r'
    /\ Robot.isStopped r' = true
    /\ Robot.active_loop r' = None
    /\ consistent r'
    /\ FrankaHardwareInterface.hw_commands_ a' = FrankaHardwareInterface.hw_commands_ a
    /\ FrankaHardwareInterface.velocity_interface_claimed_ a'
       = FrankaHardwareInterface.velocity_interface_claimed_ a
    /\ FrankaHardwareInterface.velocity_interface_running_ a'
       = FrankaHardwareInterface.velocity_interface_running_ a
    /\ FrankaHardwareInterface.on_deactivate a' = Returns CallbackReturn.SUCCESS a''
    /\ FrankaHardwareInterface.robot_ a'' = Some r'.
Proof.
  intros Hr [Hs Hf].
  destruct a as [info rb cmd pos vel eff claimed running io]. cbn in Hr. subst rb.
  bridge_cases r; cbn in Hs, Hf; try discriminate; do 3 eexists;
    (split; [unfold FrankaHardwareInterface.on_deactivate; run_hw; reflexivity|]);
    (split; [reflexivity|]); (split; [reflexivity|]); (split; [reflexivity|]);
    (split; [split; reflexivity|]);
    (split; [reflexivity|]); (split; [reflexivity|]); (split; [reflexivity|]);
    (split; [unfold FrankaHardwareInterface.on_deactivate; run_hw; reflexivity|]);
    reflexivity.
Qed.

Lemma on_deactivate_stops_the_loop_witness :
  FrankaHardwareInterface.robot_ claimed_adapter = Some reading_bridge
  /\ consistent reading_bridge
  /\ exists (a' : FrankaHardwareInterface.t) (r' : Robot.t),
       FrankaHardwareInterface.on_deactivate claimed_adapter
       = Returns CallbackReturn.SUCCESS a'
       /\ FrankaHardwareInterface.robot_ a' = Some r'
       /\ Robot.isStopped r' = true.
Proof.
  split; [reflexivity|]. split; [split; reflexivity|].
  destruct (on_deactivate_stops_the_loop claimed_adapter reading_bridge eq_refl
              (conj eq_refl eq_refl)) as (a' & a'' & r' & H & Hr' & Hs & _).
  exists a', r'. split; [exact H|]. split; [exact Hr' | exact Hs].
Defined.

(** X8: deactivation does not clear the running flag.  On an adapter whose
    bridge runs velocity control, with the flag and the claim set,
    [on_deactivate] followed by [on_activate] leaves the reading loop running
    and the flag still set, and a following [perform_command_mode_switch]
    finds flag and claim equal and changes nothing: velocity control is not
    started again. *)
Theorem reactivation_keeps_running_flag (a : FrankaHardwareInterface.t) (r : Robot.t) :
  FrankaHardwareInterface.robot_ a = Some r ->
  consistent r ->
  FrankaHardwareInterface.velocity_interface_running_ a = true ->
  FrankaHardwareInterface.velocity_interface_claimed_ a = true ->
  exists (a' : FrankaHardwareInterface.t) (r' : Robot.t),
    (FrankaHardwareInterface.on_deactivate;;
     FrankaHardwareInterface.on_activate) a = Returns CallbackReturn.SUCCESS a'
    /\ FrankaHardwareInterface.robot_ a' = Some r'
    /\ Robot.active_loop r' = Some kReading
    /\ FrankaHardwareInterface.velocity_interface_running_ a' = true
    /\ FrankaHardwareInterface.velocity_interface_claimed_ a' = true
    /\ FrankaHardwareInterface.perform_command_mode_switch [] [] a'
       = Returns return_type.OK a'.
Proof.
  intros Hr [Hs Hf] Hrun Hcl.
  destruct a as [info rb cmd pos vel eff claimed running io].
  cbn in Hr, Hrun, Hcl. subst rb running claimed.
  bridge_cases r; cbn in Hs, Hf; try discriminate; do 2 eexists;
    (split; [unfold FrankaHardwareInterface.on_deactivate; run_hw; reflexivity|]);
    (split; [reflexivity|]); (split; [reflexivity|]); (split; [reflexivity|]);
    (split; [reflexivity|]); run_hw; reflexivity.
Qed.

Lemma reactivation_keeps_running_flag_witness :
  exists (a' : FrankaHardwareInterface.t) (r' : Robot.t),
    (FrankaHardwareInterface.on_deactivate;;
     FrankaHardwareInterface.on_activate)
      (FrankaHardwareInterface.mk (mkHardwareInfo [] ∅) (Some velocity_bridge)
         (fill 0%float) (fill 0%float) (fill 0%float) (fill 0%float) true true [])
    = Returns CallbackReturn.SUCCESS a'
    /\ FrankaHardwareInterface.robot_ a' = Some r'
    /\ Robot.active_loop r' = Some kReading
    /\ FrankaHardwareInterface.velocity_interface_running_ a' = true.
Proof.
  destruct (reactivation_keeps_running_flag
              (FrankaHardwareInterface.mk (mkHardwareInfo [] ∅) (Some velocity_bridge)
                 (fill 0%float) (fill 0%float) (fill 0%float) (fill 0%float) true true [])
              velocity_bridge eq_refl (conj eq_refl eq_refl) eq_refl eq_refl)
    as (a' & r' & H & Hr' & Hl & Hrun & _).
  exists a', r'. repeat split; assumption.
Defined.

(** X9: after the switch to velocity control a finite command reaches the
    arm: on an adapter that holds a consistent bridge, with velocity claimed
    and not yet running, [perform_command_mode_switch], a [write] of seven
    finite commands and one iteration of the loop hand exactly the seven
    command slots of the adapter to the arm. *)
Theorem command_reaches_arm_after_switch (state : RobotState)
    (a : FrankaHardwareInterface.t) (r : Robot.t) :
  FrankaHardwareInterface.robot_ a = Some r ->
  consistent r ->
  FrankaHardwareInterface.velocity_interface_running_ a = false ->
  FrankaHardwareInterface.velocity_interface_claimed_ a = true ->
  any_of (fun c => negb (isfinite c)) (elements (FrankaHardwareInterface.hw_commands_ a))
    = false ->
  exists a' : FrankaHardwareInterface.t,
    (FrankaHardwareInterface.perform_command_mode_switch [] [];;
     FrankaHardwareInterface.write;;
     FrankaHardwareInterface.call (Robot.velocity_callback state)) a
    = Returns (Robot.mkOutput (FrankaHardwareInterface.hw_commands_ a) false) a'.
Proof.
  intros Hr [Hs Hf] Hrun Hcl Hfin.
  destruct a as [info rb cmd pos vel eff claimed running io].
  cbn in Hr, Hrun, Hcl. cbn [FrankaHardwareInterface.hw_commands_] in Hfin.
  subst rb running claimed.
  unfold FrankaHardwareInterface.write.
  remember (fun c : double => negb (isfinite c)) as p eqn:Hp.
  bridge_cases r; cbn in Hs, Hf; try discriminate; eexists;
    unfold FrankaHardwareInterface.perform_command_mode_switch;
    run_hw; rewrite Hfin; run_hw; reflexivity.
Qed.

Lemma command_reaches_arm_after_switch_witness :
  exists a' : FrankaHardwareInterface.t,
    (FrankaHardwareInterface.perform_command_mode_switch [] [];;
     FrankaHardwareInterface.write;;
     FrankaHardwareInterface.call (Robot.velocity_callback some_state))
      (set_command 2 1%float claimed_adapter)
    = Returns (Robot.mkOutput (Array7 0 0 1 0 0 0 0)%float false) a'.
Proof.
  exact (command_reaches_arm_after_switch some_state
           (set_command 2 1%float claimed_adapter) reading_bridge
           eq_refl (conj eq_refl eq_refl) eq_refl eq_refl eq_refl).
Defined.

(** X10: a rejected write leaves the command before it in force.  With the
    velocity flag of the bridge set, a [write] of seven finite commands, then
    a command that is a NaN or an infinity written into slot [i], then a
    second [write]: the second one returns [ERROR], and the next iteration of
    the velocity loop hands the first seven commands to the arm. *)
Theorem rejected_write_keeps_previous_command (state : RobotState) (i : nat) (v : double)
    (a : FrankaHardwareInterface.t) (r : Robot.t) :
  FrankaHardwareInterface.robot_ a = Some r ->
  Robot.use_velocity_control_ r = true ->
  any_of (fun c => negb (isfinite c)) (elements (FrankaHardwareInterface.hw_commands_ a))
    = false ->
  i < 7 ->
  isfinite v = false ->
  exists a1 a2 a3 : FrankaHardwareInterface.t,
    FrankaHardwareInterface.write a = Returns return_type.OK a1
    /\ FrankaHardwareInterface.write (set_command i v a1) = Returns return_type.ERROR a2
    /\ FrankaHardwareInterface.call (Robot.velocity_callback state) a2
       = Returns (Robot.mkOutput (FrankaHardwareInterface.hw_commands_ a)
                    (Robot.finish_ r)) a3.
Proof.
  intros Hr Hu Hfin Hi Hv.
  destruct a as [info rb cmd pos vel eff claimed running io].
  cbn in Hr. cbn [FrankaHardwareInterface.hw_commands_] in Hfin. subst rb.
  destruct r as [th fr fin st uvc cs tau velc tr]. cbn in Hu. subst uvc.
  assert (any_of (fun c => negb (isfinite c)) (elements (store cmd i v)) = true) as Hbad.
  { unfold any_of. apply existsb_exists. exists v. split.
    - destruct cmd as [c0 c1 c2 c3 c4 c5 c6].
      do 7 (destruct i as [|i]; [cbn; tauto|]). lia.
    - rewrite Hv. reflexivity. }
  unfold FrankaHardwareInterface.write, set_command.
  remember (fun c : double => negb (isfinite c)) as p eqn:Hp.
  do 3 eexists.
  split; [run_hw; rewrite Hfin; run_hw; reflexivity|].
  split; [run_hw; rewrite Hbad; reflexivity|].
  run_hw. reflexivity.
Qed.

Lemma rejected_write_keeps_previous_command_witness :
  exists a1 a2 a3 : FrankaHardwareInterface.t,
    FrankaHardwareInterface.write (adapter_with velocity_bridge (fill 1%float))
    = Returns return_type.OK a1
    /\ FrankaHardwareInterface.write (set_command 4 infinity a1)
       = Returns return_type.ERROR a2
    /\ FrankaHardwareInterface.call (Robot.velocity_callback some_state) a2
       = Returns (Robot.mkOutput (fill 1%float) false) a3.
Proof.
  refine (rejected_write_keeps_previous_command some_state 4 infinity
            (adapter_with velocity_bridge (fill 1%float)) velocity_bridge
            eq_refl eq_refl eq_refl _ eq_refl).
  lia.
Defined.

(** Without an address among the parameters, seven joints that pass the
    returning checks take [on_init] to the lookup and no further. *)
Lemma on_init_no_address (host : Host) (info : HardwareInfo)
    (a : FrankaHardwareInterface.t) :
  length (joints info) = 7 ->
  forallb passes_returning_checks (joints info) = true ->
  hardware_parameters info !! "robot_ip" = None ->
  exists extra : list io,
    FrankaHardwareInterface.on_init host info a
    = Returns CallbackReturn.ERROR
        (logged (Log FATAL "Parameter 'robot_ip' not set" [] :: ParameterAt "robot_ip" :: extra)
           (FrankaHardwareInterface.set_info_ info a))
    /\ forallb is_fatal_log extra = true.
Proof.
  intros H7 Hok Hip.
  destruct a as [info0 rb cmd pos vel eff claimed running io].
  destruct (check_joints_outcome (joints info)
              (FrankaHardwareInterface.mk info rb cmd pos vel eff claimed running io))
    as (extra & Hjs & Hextra).
  exists extra. split; [|exact Hextra].
  unfold FrankaHardwareInterface.on_init, FrankaHardwareInterface.SystemInterface_on_init,
    kNumberOfJoints.
  unfold mbind, M_bind, bind, mret, M_ret, ret, modify, get,
    FrankaHardwareInterface.set_info_.
  cbn [CallbackReturn.eqb negb]. hw_members.
  rewrite H7. cbn [Nat.eqb negb].
  rewrite Hjs, Hok.
  unfold logged, FrankaHardwareInterface.emit. hw_members.
  rewrite Hip. reflexivity.
Qed.

(** With an address, seven joints that pass the returning checks take
    [on_init] to the constructor of the bridge, and the handshake decides. *)
Lemma on_init_with_address (host : Host) (info : HardwareInfo)
    (a : FrankaHardwareInterface.t) (robot_ip : string) :
  length (joints info) = 7 ->
  forallb passes_returning_checks (joints info) = true ->
  hardware_parameters info !! "robot_ip" = Some robot_ip ->
  exists extra : list io,
    forallb is_fatal_log extra = true
    /\ match handshake host robot_ip with
       | Some what =>
           FrankaHardwareInterface.on_init host info a
           = Returns CallbackReturn.ERROR
               (logged (Log FATAL "%s" [str what]
                        :: Log FATAL "Could not connect to robot" []
                        :: Connect robot_ip
                        :: Log INFO ("Connecting to robot at " ++ dquote ++ "%s" ++ dquote ++ " ...")
                             [str robot_ip]
                        :: ParameterAt "robot_ip" :: extra)
                  (FrankaHardwareInterface.set_info_ info a))
       | None =>
           FrankaHardwareInterface.robot_ a = None ->
           exists r : Robot.t,
             Robot.new host robot_ip = inr r
             /\ FrankaHardwareInterface.on_init host info a
                = Returns CallbackReturn.SUCCESS
                    (logged [Log INFO "Successfully connected to robot" []]
                       (FrankaHardwareInterface.set_robot_ (Some r)
                          (logged (Connect robot_ip
                                   :: Log INFO ("Connecting to robot at " ++ dquote ++ "%s"
                                                ++ dquote ++ " ...") [str robot_ip]
                                   :: ParameterAt "robot_ip" :: extra)
                             (FrankaHardwareInterface.set_info_ info a))))
       end.
Proof.
  intros H7 Hok Hip.
  destruct a as [info0 rb cmd pos vel eff claimed running io].
  destruct (check_joints_outcome (joints info)
              (FrankaHardwareInterface.mk info rb cmd pos vel eff claimed running io))
    as (extra & Hjs & Hextra).
  exists extra. split; [exact Hextra|].
  unfold FrankaHardwareInterface.on_init, FrankaHardwareInterface.SystemInterface_on_init,
    kNumberOfJoints.
  unfold mbind, M_bind, bind, mret, M_ret, ret, modify, get,
    FrankaHardwareInterface.set_info_.
  cbn [CallbackReturn.eqb negb]. hw_members.
  rewrite H7. cbn [Nat.eqb negb].
  rewrite Hjs, Hok.
  unfold logged, FrankaHardwareInterface.emit. hw_members.
  rewrite Hip.
  unfold FrankaHardwareInterface.RCLCPP, FrankaHardwareInterface.make_robot, Robot.new.
  unfold mbind, M_bind, bind, mret, M_ret, ret, modify, get, FrankaHardwareInterface.emit,
    FrankaHardwareInterface.set_robot_.
  hw_members.
  destruct (handshake host robot_ip) as [what|]; [reflexivity|].
  intros Hnone. cbn in Hnone. subst rb.
  eexists. split; reflexivity.
Qed.

(** A joint that fails a returning check leaves one fatal log entry. *)
Lemma check_joint_failure (joint : ComponentInfo) (a : FrankaHardwareInterface.t) :
  passes_returning_checks joint = false ->
  exists e : io,
    FrankaHardwareInterface.check_joint joint a
    = Returns (Some CallbackReturn.ERROR) (logged [e] a)
    /\ is_fatal_log e = true.
Proof.
  destruct a as [info rb cmd pos vel eff claimed running io].
  destruct joint as [n cmds states].
  unfold FrankaHardwareInterface.check_joint, passes_returning_checks.
  cbn [command_interfaces state_interfaces name].
  destruct cmds as [|c0 [|c1 cmds]]; intros Hbad;
    [eexists; split; reflexivity | | eexists; split; reflexivity].
  step_joint.
  destruct (String.eqb (interface_name c0) HW_IF_VELOCITY);
    [|eexists; split; reflexivity].
  step_joint. cbn [andb] in Hbad.
  destruct states as [|s0 [|s1 [|s2 [|s3 states]]]];
    try discriminate; eexists; split; reflexivity.
Qed.

(** The loop over the joints stops at the first one that fails a returning
    check, with at least one fatal log entry. *)
Lemma check_joints_failure (js : list ComponentInfo) :
  forall a : FrankaHardwareInterface.t,
  forallb passes_returning_checks js = false ->
  exists extra : list io,
    FrankaHardwareInterface.check_joints js a
    = Returns (Some CallbackReturn.ERROR) (logged extra a)
    /\ forallb is_fatal_log extra = true
    /\ extra <> [].
Proof.
  induction js as [|joint js IH]; intros a Hbad; [discriminate|].
  cbn [forallb] in Hbad. cbn [FrankaHardwareInterface.check_joints].
  unfold mbind at 1, M_bind at 1, bind at 1.
  destruct (passes_returning_checks joint) eqn:Hj.
  - destruct (check_joint_outcome joint a) as (extra & Hjoint & Hextra).
    rewrite Hjoint, Hj.
    destruct (IH (logged extra a) Hbad) as (extra' & Hjs & Hextra' & Hne).
    exists (extra' ++ extra)%list. rewrite Hjs, logged_logged.
    split; [reflexivity|]. split.
    + rewrite forallb_app, Hextra, Hextra'. reflexivity.
    + destruct extra'; [contradiction | discriminate].
  - destruct (check_joint_failure joint a Hj) as (e & Hjoint & He).
    rewrite Hjoint. exists [e]. split; [reflexivity|]. split.
    + cbn. rewrite He. reflexivity.
    + discriminate.
Qed.

(** X11: on an adapter that holds no bridge yet, [on_init] always returns,
    with success or with an error, and with success exactly when there are
    seven joints, each with one command interface named velocity and three
    state interfaces, the parameter robot_ip is set, and the handshake with
    the arm at that address succeeds.  Neither the names of the state
    interfaces nor the presence of a real-time kernel have a say in it. *)
Theorem on_init_succeeds_iff (host : Host) (info : HardwareInfo)
    (a : FrankaHardwareInterface.t) :
  FrankaHardwareInterface.robot_ a = None ->
  exists (result : CallbackReturn.t) (a' : FrankaHardwareInterface.t),
    FrankaHardwareInterface.on_init host info a = Returns result a'
    /\ (result = CallbackReturn.SUCCESS \/ result = CallbackReturn.ERROR)
    /\ (result = CallbackReturn.SUCCESS <->
        length (joints info) = 7
        /\ forallb passes_returning_checks (joints info) = true
        /\ exists robot_ip : string,
             hardware_parameters info !! "robot_ip" = Some robot_ip
             /\ handshake host robot_ip = None).
Proof.
  intros Hnone.
  destruct (Nat.eq_dec (length (joints info)) 7) as [H7 | H7].
  - destruct (forallb passes_returning_checks (joints info)) eqn:Hok.
    + destruct (hardware_parameters info !! "robot_ip") as [robot_ip|] eqn:Hip.
      * destruct (on_init_with_address host info a robot_ip H7 Hok Hip)
          as (extra & _ & Hinit).
        destruct (handshake host robot_ip) as [what|] eqn:Hh.
        -- do 2 eexists. split; [exact Hinit|]. split; [right; reflexivity|].
           split; [discriminate|].
           intros (_ & _ & ip & Hip' & Hh'). congruence.
        -- destruct (Hinit Hnone) as (r & _ & Hinit').
           do 2 eexists. split; [exact Hinit'|]. split; [left; reflexivity|].
           split; [|reflexivity].
           intros _. split; [exact H7|]. split; [reflexivity|].
           exists robot_ip. split; [reflexivity | exact Hh].
      * destruct (on_init_no_address host info a H7 Hok Hip) as (extra & Hinit & _).
        do 2 eexists. split; [exact Hinit|]. split; [right; reflexivity|].
        split; [discriminate|].
        intros (_ & _ & ip & Hip' & _). discriminate.
    + destruct (on_init_returning_checks host info a H7 Hok) as (extra & Hinit & _).
      do 2 eexists. split; [exact Hinit|]. split; [right; reflexivity|].
      split; [discriminate|]. intros (_ & Hok' & _). discriminate.
  - rewrite (on_init_joint_count host info a H7).
    do 2 eexists. split; [reflexivity|]. split; [right; reflexivity|].
    split; [discriminate|]. intros (H7' & _). contradiction.
Qed.

Lemma on_init_succeeds_iff_witness :
  exists a' : FrankaHardwareInterface.t,
    FrankaHardwareInterface.on_init (mkHost false (fun _ => None) (fun _ => some_state)) panda_info blank_adapter
    = Returns CallbackReturn.SUCCESS a'.
Proof.
  destruct (on_init_succeeds_iff (mkHost false (fun _ => None) (fun _ => some_state)) panda_info blank_adapter
              eq_refl) as (result & a' & Hinit & _ & Hiff).
  exists a'. rewrite Hinit. f_equal. apply Hiff.
  split; [reflexivity|]. split; [vm_compute; exact eq_refl|].
  exists "172.16.0.2". split; [vm_compute; exact eq_refl | reflexivity].
Defined.

(** X12: a description that fails validation never reaches the arm.  With a
    number of joints other than seven, or with a joint that does not have
    exactly one command interface, named velocity, and exactly three state
    interfaces, [on_init] returns an error after at least one fatal log entry
    and nothing else: the address is not looked up, no connection is
    attempted, and the bridge pointer, the slots and the flags of the adapter
    are as before. *)
Theorem on_init_validation_error (host : Host) (info : HardwareInfo)
    (a : FrankaHardwareInterface.t) :
  length (joints info) <> 7 \/ forallb passes_returning_checks (joints info) = false ->
  exists extra : list io,
    FrankaHardwareInterface.on_init host info a
    = Returns CallbackReturn.ERROR (logged extra (FrankaHardwareInterface.set_info_ info a))
    /\ forallb is_fatal_log extra = true
    /\ extra <> [].
Proof.
  intros Hbad.
  destruct (Nat.eq_dec (length (joints info)) 7) as [H7 | H7].
  - destruct Hbad as [Hbad | Hbad]; [contradiction|].
    destruct a as [info0 rb cmd pos vel eff claimed running io].
    destruct (check_joints_failure (joints info)
                (FrankaHardwareInterface.mk info rb cmd pos vel eff claimed running io) Hbad)
      as (extra & Hjs & Hextra & Hne).
    exists extra. split; [|split; [exact Hextra | exact Hne]].
    unfold FrankaHardwareInterface.on_init, FrankaHardwareInterface.SystemInterface_on_init,
      kNumberOfJoints.
    unfold mbind, M_bind, bind, mret, M_ret, ret, modify, get,
      FrankaHardwareInterface.set_info_.
    cbn [CallbackReturn.eqb negb]. hw_members.
    rewrite H7. cbn [Nat.eqb negb].
    rewrite Hjs. reflexivity.
  - eexists. split; [exact (on_init_joint_count host info a H7)|].
    split; [reflexivity | discriminate].
Qed.

Lemma on_init_validation_error_witness :
  exists extra : list io,
    FrankaHardwareInterface.on_init realtime_host six_joints_info blank_adapter
    = Returns CallbackReturn.ERROR
        (logged extra (FrankaHardwareInterface.set_info_ six_joints_info blank_adapter))
    /\ forallb is_fatal_log extra = true.
Proof.
  destruct (on_init_validation_error realtime_host six_joints_info blank_adapter)
    as (extra & Hinit & Hf & _).
  - left. vm_compute. discriminate.
  - exists extra. split; [exact Hinit | exact Hf].
Defined.

(** X13: a missing address is found after validation and before any
    connection.  With seven joints that pass the returning checks and no
    parameter robot_ip, [on_init] looks the parameter up, logs that it is not
    set and returns an error; the entries before the lookup are fatal log
    entries only, so the constructor of the bridge is never entered. *)
Theorem on_init_missing_address (host : Host) (info : HardwareInfo)
    (a : FrankaHardwareInterface.t) :
  length (joints info) = 7 ->
  forallb passes_returning_checks (joints info) = true ->
  hardware_parameters info !! "robot_ip" = None ->
  exists extra : list io,
    FrankaHardwareInterface.on_init host info a
    = Returns CallbackReturn.ERROR
        (logged (Log FATAL "Parameter 'robot_ip' not set" [] :: ParameterAt "robot_ip" :: extra)
           (FrankaHardwareInterface.set_info_ info a))
    /\ forallb is_fatal_log extra = true.
Proof.
  exact (on_init_no_address host info a).
Qed.

Lemma on_init_missing_address_witness :
  exists extra : list io,
    FrankaHardwareInterface.on_init realtime_host no_address_info blank_adapter
    = Returns CallbackReturn.ERROR
        (logged (Log FATAL "Parameter 'robot_ip' not set" [] :: ParameterAt "robot_ip" :: extra)
           (FrankaHardwareInterface.set_info_ no_address_info blank_adapter)).
Proof.
  destruct (on_init_missing_address realtime_host no_address_info blank_adapter)
    as (extra & Hinit & _);
    [reflexivity | vm_compute; exact eq_refl | vm_compute; exact eq_refl |].
  exists extra. exact Hinit.
Defined.

(** X14: a failed handshake is reported with its cause and leaves no bridge
    behind.  With seven joints that pass the returning checks and an address
    at which the handshake fails, [on_init] enters the constructor once, logs
    that it could not connect and the text of the exception, and returns an
    error; the bridge pointer of the adapter is as before. *)
Theorem on_init_connection_failure (host : Host) (info : HardwareInfo)
    (a : FrankaHardwareInterface.t) (robot_ip what : string) :
  length (joints info) = 7 ->
  forallb passes_returning_checks (joints info) = true ->
  hardware_parameters info !! "robot_ip" = Some robot_ip ->
  handshake host robot_ip = Some what ->
  exists (extra : list io) (a' : FrankaHardwareInterface.t),
    FrankaHardwareInterface.on_init host info a = Returns CallbackReturn.ERROR a'
    /\ FrankaHardwareInterface.robot_ a' = FrankaHardwareInterface.robot_ a
    /\ FrankaHardwareInterface.io_ a'
       = (Log FATAL "%s" [str what]
          :: Log FATAL "Could not connect to robot" []
          :: Connect robot_ip
          :: Log INFO ("Connecting to robot at " ++ dquote ++ "%s" ++ dquote ++ " ...")
               [str robot_ip]
          :: ParameterAt "robot_ip" :: extra ++ FrankaHardwareInterface.io_ a)%list
    /\ forallb is_fatal_log extra = true.
Proof.
  intros H7 Hok Hip Hh.
  destruct (on_init_with_address host info a robot_ip H7 Hok Hip) as (extra & Hextra & Hinit).
  rewrite Hh in Hinit.
  exists extra. eexists. split; [exact Hinit|].
  destruct a; repeat split. exact Hextra.
Qed.

Lemma on_init_connection_failure_witness :
  exists a' : FrankaHardwareInterface.t,
    FrankaHardwareInterface.on_init unreachable_host panda_info blank_adapter
    = Returns CallbackReturn.ERROR a'
    /\ FrankaHardwareInterface.robot_ a' = None.
Proof.
  destruct (on_init_connection_failure unreachable_host panda_info blank_adapter
              "172.16.0.2" "libfranka: Connection timeout")
    as (extra & a' & Hinit & Hr & _);
    [reflexivity | vm_compute; exact eq_refl | vm_compute; exact eq_refl | reflexivity |].
  exists a'. split; [exact Hinit | exact Hr].
Defined.

(** ** The exported interfaces *)

(** The loop of [export_state_interfaces] goes through when the last index
    stays below seven, and throws otherwise. *)
Lemma export_state_interfaces_from_outcome (js : list ComponentInfo) :
  forall (i : nat) (acc : list Handle) (a : FrankaHardwareInterface.t),
    i <= 7 ->
    FrankaHardwareInterface.export_state_interfaces_from i js acc a
    = if (i + length js <=? 7)%nat
      then Returns (acc ++ state_handles i js)%list a
      else Throws out_of_range a.
Proof.
  induction js as [|joint js IH]; intros i acc a Hi.
  - cbn [FrankaHardwareInterface.export_state_interfaces_from state_handles length].
    rewrite app_nil_r.
    replace (i + 0 <=? 7)%nat with true by (symmetry; apply Nat.leb_le; lia).
    reflexivity.
  - cbn [FrankaHardwareInterface.export_state_interfaces_from state_handles length].
    unfold FrankaHardwareInterface.address_at.
    destruct (i <? 7)%nat eqn:Ei.
    + apply Nat.ltb_lt in Ei.
      unfold mbind, M_bind, bind, mret, M_ret, ret. rewrite IH by lia.
      replace (S i + length js) with (i + S (length js)) by lia.
      destruct (i + S (length js) <=? 7)%nat; [|reflexivity].
      rewrite <- !app_assoc. reflexivity.
    + unfold mbind, M_bind, bind, throw.
      apply Nat.ltb_ge in Ei.
      destruct (i + S (length js) <=? 7)%nat eqn:E; [|reflexivity].
      apply Nat.leb_le in E. lia.
Qed.

Lemma export_command_interfaces_from_outcome (js : list ComponentInfo) :
  forall (i : nat) (acc : list Handle) (a : FrankaHardwareInterface.t),
    i <= 7 ->
    FrankaHardwareInterface.export_command_interfaces_from i js acc a
    = if (i + length js <=? 7)%nat
      then Returns (acc ++ command_handles i js)%list a
      else Throws out_of_range a.
Proof.
  induction js as [|joint js IH]; intros i acc a Hi.
  - cbn [FrankaHardwareInterface.export_command_interfaces_from command_handles length].
    rewrite app_nil_r.
    replace (i + 0 <=? 7)%nat with true by (symmetry; apply Nat.leb_le; lia).
    reflexivity.
  - cbn [FrankaHardwareInterface.export_command_interfaces_from command_handles length].
    unfold FrankaHardwareInterface.address_at.
    destruct (i <? 7)%nat eqn:Ei.
    + apply Nat.ltb_lt in Ei.
      unfold mbind, M_bind, bind, mret, M_ret, ret. rewrite IH by lia.
      replace (S i + length js) with (i + S (length js)) by lia.
      destruct (i + S (length js) <=? 7)%nat; [|reflexivity].
      rewrite <- !app_assoc. reflexivity.
    + unfold mbind, M_bind, bind, throw.
      apply Nat.ltb_ge in Ei.
      destruct (i + S (length js) <=? 7)%nat eqn:E; [|reflexivity].
      apply Nat.leb_le in E. lia.
Qed.

(** The pointers of the handles built from index [i] on point at index [i]
    or above. *)
Lemma state_handles_offsets (js : list ComponentInfo) :
  forall (i : nat) (p : pointer),
    In p (map value_ptr (state_handles i js)) -> i <= offset p.
Proof.
  induction js as [|joint js IH]; intros i p Hin; [destruct Hin|].
  cbn in Hin. destruct Hin as [<- | [<- | [<- | Hin]]]; cbn; try lia.
  apply IH in Hin. lia.
Qed.

Lemma command_handles_offsets (js : list ComponentInfo) :
  forall (i : nat) (p : pointer),
    In p (map value_ptr (command_handles i js)) -> i <= offset p.
Proof.
  induction js as [|joint js IH]; intros i p Hin; [destruct Hin|].
  cbn in Hin. destruct Hin as [<- | Hin]; cbn; try lia.
  apply IH in Hin. lia.
Qed.

Lemma state_handles_pointers_distinct (js : list ComponentInfo) :
  forall i : nat, List.NoDup (map value_ptr (state_handles i js)).
Proof.
  induction js as [|joint js IH]; intros i; [constructor|].
  cbn [state_handles map value_ptr].
  constructor; [|constructor; [|constructor; [|apply IH]]].
  - intros [H | [H | H]]; try discriminate.
    apply state_handles_offsets in H. cbn in H. lia.
  - intros [H | H]; try discriminate.
    apply state_handles_offsets in H. cbn in H. lia.
  - intros H. apply state_handles_offsets in H. cbn in H. lia.
Qed.

Lemma command_handles_pointers_distinct (js : list ComponentInfo) :
  forall i : nat, List.NoDup (map value_ptr (command_handles i js)).
Proof.
  induction js as [|joint js IH]; intros i; [constructor|].
  cbn [command_handles map value_ptr].
  constructor; [|apply IH].
  intros H. apply command_handles_offsets in H. cbn in H. lia.
Qed.

Lemma state_handles_length (js : list ComponentInfo) :
  forall i : nat, length (state_handles i js) = 3 * length js.
Proof.
  induction js as [|joint js IH]; intros i; [reflexivity|].
  cbn [state_handles length]. rewrite IH. lia.
Qed.

Lemma state_handles_lookup (js : list ComponentInfo) :
  forall (i k : nat) (joint : ComponentInfo),
    js !! k = Some joint ->
    state_handles i js !! (3 * k)
      = Some (mkHandle (name joint) HW_IF_POSITION (mkPointer positions (i + k)))
    /\ state_handles i js !! (3 * k + 1)
      = Some (mkHandle (name joint) HW_IF_VELOCITY (mkPointer velocities (i + k)))
    /\ state_handles i js !! (3 * k + 2)
      = Some (mkHandle (name joint) HW_IF_EFFORT (mkPointer efforts (i + k))).
Proof.
  induction js as [|j js IH]; intros i k joint Hk; [discriminate|].
  destruct k as [|k].
  - injection Hk as ->. rewrite Nat.add_0_r. repeat split.
  - cbn in Hk. destruct (IH (S i) k joint Hk) as (H0 & H1 & H2).
    replace (3 * S k) with (S (S (S (3 * k)))) by lia.
    replace (i + S k) with (S i + k) by lia.
    cbn [state_handles]. repeat split; assumption.
Qed.

Lemma command_handles_lookup (js : list ComponentInfo) :
  forall (i k : nat) (joint : ComponentInfo),
    js !! k = Some joint ->
    command_handles i js !! k
      = Some (mkHandle (name joint) HW_IF_VELOCITY (mkPointer commands (i + k))).
Proof.
  induction js as [|j js IH]; intros i k joint Hk; [discriminate|].
  destruct k as [|k].
  - injection Hk as ->. rewrite Nat.add_0_r. reflexivity.
  - cbn in Hk. replace (i + S k) with (S i + k) by lia.
    cbn [command_handles]. exact (IH (S i) k joint Hk).
Qed.

Lemma command_handles_length (js : list ComponentInfo) :
  forall i : nat, length (command_handles i js) = length js.
Proof.
  induction js as [|joint js IH]; intros i; [reflexivity|].
  cbn [command_handles length]. rewrite IH. reflexivity.
Qed.

(** Storing into an element of an array of seven and reading the array. *)
Lemma elements_store (x : array7) (i k : nat) (v : double) :
  i < 7 ->
  elements (store x i v) !! k = if (k =? i)%nat then Some v else elements x !! k.
Proof.
  intros Hi. destruct x as [x0 x1 x2 x3 x4 x5 x6].
  do 7 (destruct i as [|i];
        [do 8 (destruct k as [|k]; [reflexivity|]); reflexivity|]).
  lia.
Qed.

(** X15: [export_state_interfaces] hands out three handles per joint, in
    the order of the joints: position, velocity, effort, named after the joint
    and pointing at the element of the positions, velocities and efforts array
    with the index of the joint.  No two handles share a pointer, and the
    adapter is unchanged.  With more than seven joints it throws
    [std::out_of_range] instead. *)
Theorem export_state_interfaces_layout (a : FrankaHardwareInterface.t) :
  (length (joints (FrankaHardwareInterface.info_ a)) <= 7 ->
   exists hs : list Handle,
     FrankaHardwareInterface.export_state_interfaces a = Returns hs a
     /\ length hs = 3 * length (joints (FrankaHardwareInterface.info_ a))
     /\ List.NoDup (map value_ptr hs)
     /\ forall (k : nat) (joint : ComponentInfo),
          joints (FrankaHardwareInterface.info_ a) !! k = Some joint ->
          hs !! (3 * k) = Some (mkHandle (name joint) HW_IF_POSITION (mkPointer positions k))
          /\ hs !! (3 * k + 1)
             = Some (mkHandle (name joint) HW_IF_VELOCITY (mkPointer velocities k))
          /\ hs !! (3 * k + 2)
             = Some (mkHandle (name joint) HW_IF_EFFORT (mkPointer efforts k)))
  /\ (7 < length (joints (FrankaHardwareInterface.info_ a)) ->
      FrankaHardwareInterface.export_state_interfaces a = Throws out_of_range a).
Proof.
  unfold FrankaHardwareInterface.export_state_interfaces, mbind, M_bind, bind, get.
  rewrite export_state_interfaces_from_outcome by lia.
  cbn [Nat.add app]. split; intros Hlen.
  - apply Nat.leb_le in Hlen. rewrite Hlen.
    eexists. split; [reflexivity|].
    split; [apply state_handles_length|].
    split; [apply state_handles_pointers_distinct|].
    intros k joint Hk. exact (state_handles_lookup _ 0 k joint Hk).
  - apply Nat.leb_gt in Hlen. rewrite Hlen. reflexivity.
Qed.

(** X16: [export_command_interfaces] hands out one velocity handle per
    joint, in the order of the joints, pointing at the element of the command
    array with the index of the joint; no two handles share a pointer.  A
    value stored through the handle of joint [k] is what that handle reads
    afterwards, and every other handle reads what it read before.  With more
    than seven joints it throws [std::out_of_range] instead. *)
Theorem export_command_interfaces_layout (a : FrankaHardwareInterface.t) :
  (length (joints (FrankaHardwareInterface.info_ a)) <= 7 ->
   exists hs : list Handle,
     FrankaHardwareInterface.export_command_interfaces a = Returns hs a
     /\ length hs = length (joints (FrankaHardwareInterface.info_ a))
     /\ List.NoDup (map value_ptr hs)
     /\ forall (k : nat) (joint : ComponentInfo),
          joints (FrankaHardwareInterface.info_ a) !! k = Some joint ->
          exists h : Handle,
            hs !! k = Some h
            /\ h = mkHandle (name joint) HW_IF_VELOCITY (mkPointer commands k)
            /\ forall v : double,
                 get_value h (set_command k v a) = Some v
                 /\ forall (k' : nat) (h' : Handle),
                      hs !! k' = Some h' -> k' <> k ->
                      get_value h' (set_command k v a) = get_value h' a)
  /\ (7 < length (joints (FrankaHardwareInterface.info_ a)) ->
      FrankaHardwareInterface.export_command_interfaces a = Throws out_of_range a).
Proof.
  unfold FrankaHardwareInterface.export_command_interfaces, mbind, M_bind, bind, get.
  rewrite export_command_interfaces_from_outcome by lia.
  cbn [Nat.add app]. split; intros Hlen.
  - pose proof Hlen as Hle. apply Nat.leb_le in Hlen. rewrite Hlen.
    eexists. split; [reflexivity|].
    split; [apply command_handles_length|].
    split; [apply command_handles_pointers_distinct|].
    intros k joint Hk. eexists. split; [exact (command_handles_lookup _ 0 k joint Hk)|].
    split; [reflexivity|].
    assert (k < 7) as Hk7.
    { apply lookup_lt_Some in Hk. lia. }
    intros v. split.
    + unfold get_value, set_command. destruct a. cbn.
      rewrite (elements_store _ k k v Hk7), Nat.eqb_refl. reflexivity.
    + intros k' h' Hk' Hne.
      assert (exists joint', joints (FrankaHardwareInterface.info_ a) !! k' = Some joint')
        as [joint' Hj'].
      { apply lookup_lt_is_Some. apply lookup_lt_Some in Hk'.
        rewrite command_handles_length in Hk'. exact Hk'. }
      rewrite (command_handles_lookup _ 0 k' joint' Hj') in Hk'.
      injection Hk' as <-.
      unfold get_value, set_command. destruct a. cbn.
      rewrite (elements_store _ k k' v Hk7).
      destruct (Nat.eqb_spec k' k); [contradiction | reflexivity].
  - apply Nat.leb_gt in Hlen. rewrite Hlen. reflexivity.
Qed.

(** X17: the handles exported before stay good after a read: once [read]
    has returned, the three state handles of joint [k] read element [k] of the
    positions, velocities and torques of the snapshot the bridge held. *)
Theorem state_handles_read_snapshot (a a' : FrankaHardwareInterface.t) (r : Robot.t)
    (k : nat) (joint : ComponentInfo) (hs : list Handle) :
  FrankaHardwareInterface.export_state_interfaces a = Returns hs a ->
  joints (FrankaHardwareInterface.info_ a) !! k = Some joint ->
  FrankaHardwareInterface.robot_ a = Some r ->
  FrankaHardwareInterface.read a = Returns return_type.OK a' ->
  exists hp hv he : Handle,
    hs !! (3 * k) = Some hp /\ hs !! (3 * k + 1) = Some hv /\ hs !! (3 * k + 2) = Some he
    /\ get_value hp a' = elements (q (Robot.current_state_ r)) !! k
    /\ get_value hv a' = elements (dq (Robot.current_state_ r)) !! k
    /\ get_value he a' = elements (tau_J (Robot.current_state_ r)) !! k.
Proof.
  intros Hexp Hk Hr Hread.
  revert Hexp.
  unfold FrankaHardwareInterface.export_state_interfaces, mbind, M_bind, bind, get.
  rewrite export_state_interfaces_from_outcome by lia.
  cbn [Nat.add app].
  destruct (length (joints (FrankaHardwareInterface.info_ a)) <=? 7)%nat; [|discriminate].
  intros [= <-].
  destruct (state_handles_lookup _ 0 k joint Hk) as (H0 & H1 & H2).
  do 3 eexists. split; [exact H0|]. split; [exact H1|]. split; [exact H2|].
  destruct a as [info rb cmd pos vel eff claimed running io]. cbn in Hr. subst rb.
  destruct r as [th fr fin st uvc cs tau velc tr].
  revert Hread. run_hw. intros [= <-]. repeat split.
Qed.

Lemma state_handles_read_snapshot_witness :
  exists (hs : list Handle) (a' : FrankaHardwareInterface.t) (hp : Handle),
    FrankaHardwareInterface.export_state_interfaces
      (FrankaHardwareInterface.set_info_ panda_info claimed_adapter)
    = Returns hs (FrankaHardwareInterface.set_info_ panda_info claimed_adapter)
    /\ FrankaHardwareInterface.read
         (FrankaHardwareInterface.set_info_ panda_info claimed_adapter)
       = Returns return_type.OK a'
    /\ hs !! 6 = Some hp
    /\ get_value hp a' = Some 0%float.
Proof.
  eexists. eexists.
  assert (FrankaHardwareInterface.export_state_interfaces
            (FrankaHardwareInterface.set_info_ panda_info claimed_adapter)
          = Returns (state_handles 0 (joints panda_info))
              (FrankaHardwareInterface.set_info_ panda_info claimed_adapter)) as Hexp
    by (vm_compute; exact eq_refl).
  assert (FrankaHardwareInterface.read
            (FrankaHardwareInterface.set_info_ panda_info claimed_adapter)
          = Returns return_type.OK
              (FrankaHardwareInterface.set_robot_
                 (Some (Robot.emit (Unlock read_mutex)
                          (Robot.emit Snapshot (Robot.emit (Lock read_mutex) reading_bridge))))
                 (FrankaHardwareInterface.set_info_ panda_info claimed_adapter))) as Hread
    by (vm_compute; exact eq_refl).
  destruct (state_handles_read_snapshot _ _ reading_bridge 2 (panda_joint 3) _
              Hexp eq_refl eq_refl Hread) as (hp & hv & he & H0 & _ & _ & Hp & _).
  exists hp. split; [exact Hexp|]. split; [exact Hread|]. split; [exact H0 | exact Hp].
Defined.

Lemma export_state_interfaces_layout_witness :
  FrankaHardwareInterface.export_state_interfaces
    (FrankaHardwareInterface.set_info_ eight_joints_info blank_adapter)
  = Throws out_of_range (FrankaHardwareInterface.set_info_ eight_joints_info blank_adapter).
Proof.
  apply (proj2 (export_state_interfaces_layout
                  (FrankaHardwareInterface.set_info_ eight_joints_info blank_adapter))).
  vm_compute. lia.
Defined.

Lemma export_command_interfaces_layout_witness :
  exists hs : list Handle,
    FrankaHardwareInterface.export_command_interfaces
      (FrankaHardwareInterface.set_info_ panda_info blank_adapter)
    = Returns hs (FrankaHardwareInterface.set_info_ panda_info blank_adapter)
    /\ length hs = 7.
Proof.
  destruct (proj1 (export_command_interfaces_layout
                     (FrankaHardwareInterface.set_info_ panda_info blank_adapter)))
    as (hs & Hexp & Hlen & _).
  - vm_compute. lia.
  - exists hs. split; [exact Hexp | exact Hlen].
Defined.

(** ** The life cycle *)

(** X18: the life cycle goes through from scratch.  On an adapter that holds
    no bridge, with a description that passes validation and an arm that
    answers, [on_init] succeeds.  [on_activate] then succeeds, whatever states
    the reading loop publishes before the adapter takes its snapshot: it
    leaves the reading loop running, zeros in the command slots, and in the
    state slots the last state published, or zeros if the loop has published
    none.  [on_deactivate] then succeeds and leaves the bridge stopped with no
    loop running. *)
Theorem life_cycle_from_scratch (host : Host) (info : HardwareInfo)
    (a : FrankaHardwareInterface.t) (robot_ip : string) :
  FrankaHardwareInterface.robot_ a = None ->
  length (joints info) = 7 ->
  forallb passes_returning_checks (joints info) = true ->
  hardware_parameters info !! "robot_ip" = Some robot_ip ->
  handshake host robot_ip = None ->
  exists a1 : FrankaHardwareInterface.t,
    FrankaHardwareInterface.on_init host info a = Returns CallbackReturn.SUCCESS a1
    /\ (forall states : list RobotState,
        exists (a2 a3 : FrankaHardwareInterface.t) (r2 r3 : Robot.t),
          on_activate_concurrent states a1 = Returns CallbackReturn.SUCCESS a2
          /\ FrankaHardwareInterface.robot_ a2 = Some r2
          /\ Robot.active_loop r2 = Some kReading
          /\ FrankaHardwareInterface.hw_commands_ a2 = fill 0%float
          /\ FrankaHardwareInterface.hw_positions_ a2
             = q (List.last states RobotState_default)
          /\ FrankaHardwareInterface.hw_velocities_ a2
             = dq (List.last states RobotState_default)
          /\ FrankaHardwareInterface.hw_efforts_ a2
             = tau_J (List.last states RobotState_default)
          /\ FrankaHardwareInterface.on_deactivate a2 = Returns CallbackReturn.SUCCESS a3
          /\ FrankaHardwareInterface.robot_ a3 = Some r3
          /\ Robot.isStopped r3 = true
          /\ Robot.active_loop r3 = None)
    /\ on_activate_concurrent [] a1 = FrankaHardwareInterface.on_activate a1.
Proof.
  intros Hnone H7 Hok Hip Hh.
  destruct (on_init_with_address host info a robot_ip H7 Hok Hip) as (extra & _ & Hinit).
  rewrite Hh in Hinit. destruct (Hinit Hnone) as (r & Hnew & Hinit'). clear Hinit.
  unfold Robot.new in Hnew. rewrite Hh in Hnew. injection Hnew as <-.
  destruct a as [info0 rb cmd pos vel eff claimed running io].
  set (fr := mkfranka_Robot robot_ip
               (if negb (hasRealtimeKernel host) then kIgnore else kEnforce) (arm host)) in *.
  set (warned := if negb (hasRealtimeKernel host) then [_] else []) in *.
  clearbody fr warned.
  match type of Hinit' with _ = Returns _ ?x => set (a1 := x) in * end.
  assert (exists io1, a1 = FrankaHardwareInterface.mk info
            (Some (Robot.mk None fr false true false RobotState_default
                     (fill 0%float) (fill 0%float) warned))
            cmd pos vel eff claimed running io1) as [io1 Ha1]
    by (eexists; reflexivity).
  clearbody a1. subst a1.
  eexists. split; [exact Hinit'|]. split.
  - intros states.
    destruct (reading_iterations_publish states fr false false RobotState_default
                (fill 0%float) (fill 0%float) (Spawn kReading :: warned)) as [tr' Htr'].
    do 4 eexists.
    split.
    { unfold on_activate_concurrent.
      unfold mbind at 1, M_bind at 1, bind at 1.
      unfold FrankaHardwareInterface.call at 1.
      cbn [FrankaHardwareInterface.robot_].
      replace (Robot.initializeContinuousReading _) with
        (Returns (St := Robot.t) tt
           (Robot.mk (Some (mkThread kReading true)) fr false false false RobotState_default
              (fill 0%float) (fill 0%float) (Spawn kReading :: warned)))
        by (vm_compute; exact eq_refl).
      unfold mbind at 1, M_bind at 1, bind at 1.
      unfold FrankaHardwareInterface.call at 1, FrankaHardwareInterface.set_robot_ at 1.
      cbn [FrankaHardwareInterface.robot_].
      rewrite Htr'. vm_compute. exact eq_refl. }
    split; [vm_compute; exact eq_refl|]. split; [vm_compute; exact eq_refl|].
    split; [vm_compute; exact eq_refl|]. split; [vm_compute; exact eq_refl|].
    split; [vm_compute; exact eq_refl|]. split; [vm_compute; exact eq_refl|].
    split; [vm_compute; exact eq_refl|].
    split; [vm_compute; exact eq_refl|]. split; vm_compute; exact eq_refl.
  - vm_compute. exact eq_refl.
Qed.

(** On a host whose arm measures [some_state], with one state published
    before the snapshot: the state slots take that state, not zeros. *)
Lemma life_cycle_from_scratch_witness :
  exists (a1 a2 a3 : FrankaHardwareInterface.t),
    FrankaHardwareInterface.on_init realtime_host panda_info blank_adapter
    = Returns CallbackReturn.SUCCESS a1
    /\ on_activate_concurrent [some_state] a1 = Returns CallbackReturn.SUCCESS a2
    /\ FrankaHardwareInterface.hw_positions_ a2 = fill 1%float
    /\ FrankaHardwareInterface.on_deactivate a2 = Returns CallbackReturn.SUCCESS a3.
Proof.
  destruct (life_cycle_from_scratch realtime_host panda_info blank_adapter "172.16.0.2")
    as (a1 & Hinit & Hact & _);
    [reflexivity | reflexivity | vm_compute; exact eq_refl | vm_compute; exact eq_refl
    | reflexivity |].
  destruct (Hact [some_state])
    as (a2 & a3 & r2 & r3 & Hact' & _ & _ & _ & Hpos & _ & _ & Hdeact & _).
  exists a1, a2, a3. split; [exact Hinit|]. split; [exact Hact'|].
  split; [exact Hpos | exact Hdeact].
Defined.

(** ** The mode-switch protocol *)

(** What [prepare_command_mode_switch] does when both counts are seven or
    zero, and when the start count is neither after a stop count of seven. *)
Lemma prepare_command_mode_switch_cases
    (start_interfaces stop_interfaces : list string) (a : FrankaHardwareInterface.t) :
  let starts := count_if FrankaHardwareInterface.is_velocity_interface start_interfaces in
  let stops := count_if FrankaHardwareInterface.is_velocity_interface stop_interfaces in
  (starts = 7 -> stops = 0 ->
   FrankaHardwareInterface.prepare_command_mode_switch start_interfaces stop_interfaces a
   = Returns return_type.OK (FrankaHardwareInterface.set_velocity_interface_claimed_ true a))
  /\ (starts = 0 -> stops = 7 ->
      FrankaHardwareInterface.prepare_command_mode_switch start_interfaces stop_interfaces a
      = Returns return_type.OK (FrankaHardwareInterface.set_velocity_interface_claimed_ false a))
  /\ (starts <> 7 -> starts <> 0 -> stops = 7 ->
      FrankaHardwareInterface.prepare_command_mode_switch start_interfaces stop_interfaces a
      = Throws
          (invalid_argument "Invalid number of velocity interfaces to start. Expected 7")
          (FrankaHardwareInterface.emit
             (Log FATAL "Expected %ld velocity interfaces to start, but got %ld instead."
                [num 7; num starts])
             (FrankaHardwareInterface.set_velocity_interface_claimed_ false a))).
Proof.
  cbv zeta. unfold FrankaHardwareInterface.prepare_command_mode_switch, kNumberOfJoints.
  destruct a as [info rb cmd pos vel eff claimed running io].
  split; [|split].
  - intros -> ->. reflexivity.
  - intros -> ->. reflexivity.
  - intros H7 H0 ->. apply Nat.eqb_neq in H7, H0.
    run_hw. cbn [Nat.eqb]. rewrite H7, H0. reflexivity.
Qed.

(** X19: the mode-switch protocol goes there and back.  On an adapter that
    holds a consistent bridge with velocity not running, a request that starts
    exactly seven velocity interfaces and stops none, prepared and performed,
    leaves velocity control running with both flags set; the reverse request,
    prepared and performed, leaves continuous reading running with both flags
    clear. *)
Theorem mode_switch_there_and_back (claim release : list string)
    (a : FrankaHardwareInterface.t) (r : Robot.t) :
  FrankaHardwareInterface.robot_ a = Some r ->
  consistent r ->
  FrankaHardwareInterface.velocity_interface_running_ a = false ->
  count_if FrankaHardwareInterface.is_velocity_interface claim = 7 ->
  count_if FrankaHardwareInterface.is_velocity_interface release = 0 ->
  exists (a1 a2 : FrankaHardwareInterface.t) (r1 r2 : Robot.t),
    (FrankaHardwareInterface.prepare_command_mode_switch claim release;;
     FrankaHardwareInterface.perform_command_mode_switch claim release) a
    = Returns return_type.OK a1
    /\ FrankaHardwareInterface.robot_ a1 = Some r1
    /\ Robot.active_loop r1 = Some kVelocityControl
    /\ FrankaHardwareInterface.velocity_interface_running_ a1 = true
    /\ FrankaHardwareInterface.velocity_interface_claimed_ a1 = true
    /\ (FrankaHardwareInterface.prepare_command_mode_switch release claim;;
        FrankaHardwareInterface.perform_command_mode_switch release claim) a1
       = Returns return_type.OK a2
    /\ FrankaHardwareInterface.robot_ a2 = Some r2
    /\ Robot.active_loop r2 = Some kReading
    /\ FrankaHardwareInterface.velocity_interface_running_ a2 = false
    /\ FrankaHardwareInterface.velocity_interface_claimed_ a2 = false.
Proof.
  intros Hr [Hs Hf] Hrun H7 H0.
  destruct a as [info rb cmd pos vel eff claimed running io].
  cbn in Hr, Hrun. subst rb running.
  assert (forall x, FrankaHardwareInterface.prepare_command_mode_switch claim release x
            = Returns return_type.OK
                (FrankaHardwareInterface.set_velocity_interface_claimed_ true x)) as Hclaim
    by (intros x; exact (proj1 (prepare_command_mode_switch_cases claim release x) H7 H0)).
  assert (forall x, FrankaHardwareInterface.prepare_command_mode_switch release claim x
            = Returns return_type.OK
                (FrankaHardwareInterface.set_velocity_interface_claimed_ false x)) as Hrelease
    by (intros x;
        exact (proj1 (proj2 (prepare_command_mode_switch_cases release claim x)) H0 H7)).
  bridge_cases r; cbn in Hs, Hf; try discriminate; do 4 eexists;
    (split; [unfold mbind, M_bind, bind; rewrite Hclaim; vm_compute; exact eq_refl|]);
    (split; [vm_compute; exact eq_refl|]); (split; [vm_compute; exact eq_refl|]);
    (split; [vm_compute; exact eq_refl|]); (split; [vm_compute; exact eq_refl|]);
    (split; [unfold mbind, M_bind, bind; rewrite Hrelease; vm_compute; exact eq_refl|]);
    (split; [vm_compute; exact eq_refl|]); (split; [vm_compute; exact eq_refl|]);
    split; vm_compute; exact eq_refl.
Qed.

Lemma mode_switch_there_and_back_witness :
  exists (a1 a2 : FrankaHardwareInterface.t),
    (FrankaHardwareInterface.prepare_command_mode_switch (velocity_interfaces 7) [];;
     FrankaHardwareInterface.perform_command_mode_switch (velocity_interfaces 7) [])
      (adapter_with reading_bridge (fill 0%float))
    = Returns return_type.OK a1
    /\ (FrankaHardwareInterface.prepare_command_mode_switch [] (velocity_interfaces 7);;
        FrankaHardwareInterface.perform_command_mode_switch [] (velocity_interfaces 7)) a1
       = Returns return_type.OK a2
    /\ FrankaHardwareInterface.velocity_interface_running_ a2 = false.
Proof.
  destruct (mode_switch_there_and_back (velocity_interfaces 7) []
              (adapter_with reading_bridge (fill 0%float)) reading_bridge
              eq_refl (conj eq_refl eq_refl) eq_refl)
    as (a1 & a2 & r1 & r2 & H1 & _ & _ & _ & _ & H2 & _ & _ & Hrun & _);
    [vm_compute; exact eq_refl | reflexivity |].
  exists a1, a2. split; [exact H1|]. split; [exact H2 | exact Hrun].
Defined.

(** X20: a rejected request can still release the interface.  With velocity
    control running and claimed, a request that stops exactly seven velocity
    interfaces and starts a number of them that is neither seven nor zero is
    rejected with [std::invalid_argument], but the claimed flag has already
    been cleared when it is thrown: the next [perform_command_mode_switch]
    stops velocity control and starts continuous reading. *)
Theorem rejected_request_releases_velocity (start_interfaces stop_interfaces : list string)
    (a : FrankaHardwareInterface.t) (r : Robot.t) :
  FrankaHardwareInterface.robot_ a = Some r ->
  consistent r ->
  FrankaHardwareInterface.velocity_interface_running_ a = true ->
  FrankaHardwareInterface.velocity_interface_claimed_ a = true ->
  count_if FrankaHardwareInterface.is_velocity_interface stop_interfaces = 7 ->
  count_if FrankaHardwareInterface.is_velocity_interface start_interfaces <> 7 ->
  count_if FrankaHardwareInterface.is_velocity_interface start_interfaces <> 0 ->
  exists (a1 a2 : FrankaHardwareInterface.t) (r2 : Robot.t),
    FrankaHardwareInterface.prepare_command_mode_switch start_interfaces stop_interfaces a
    = Throws (invalid_argument "Invalid number of velocity interfaces to start. Expected 7") a1
    /\ FrankaHardwareInterface.velocity_interface_claimed_ a1 = false
    /\ FrankaHardwareInterface.velocity_interface_running_ a1 = true
    /\ FrankaHardwareInterface.perform_command_mode_switch start_interfaces stop_interfaces a1
       = Returns return_type.OK a2
    /\ FrankaHardwareInterface.robot_ a2 = Some r2
    /\ Robot.active_loop r2 = Some kReading
    /\ FrankaHardwareInterface.velocity_interface_running_ a2 = false.
Proof.
  intros Hr [Hs Hf] Hrun Hcl H7 Hn7 Hn0.
  destruct a as [info rb cmd pos vel eff claimed running io].
  cbn in Hr, Hrun, Hcl. subst rb running claimed.
  bridge_cases r; cbn in Hs, Hf; try discriminate; do 3 eexists;
    (split; [exact (proj2 (proj2 (prepare_command_mode_switch_cases
                                    start_interfaces stop_interfaces _)) Hn7 Hn0 H7)|]);
    (split; [reflexivity|]); (split; [reflexivity|]);
    (split; [run_hw; reflexivity|]);
    (split; [reflexivity|]); split; reflexivity.
Qed.

Lemma rejected_request_releases_velocity_witness :
  exists (a1 a2 : FrankaHardwareInterface.t),
    FrankaHardwareInterface.prepare_command_mode_switch
      (velocity_interfaces 3) (velocity_interfaces 7)
      (FrankaHardwareInterface.mk (mkHardwareInfo [] ∅) (Some velocity_bridge)
         (fill 0%float) (fill 0%float) (fill 0%float) (fill 0%float) true true [])
    = Throws (invalid_argument "Invalid number of velocity interfaces to start. Expected 7") a1
    /\ FrankaHardwareInterface.perform_command_mode_switch
         (velocity_interfaces 3) (velocity_interfaces 7) a1
       = Returns return_type.OK a2
    /\ FrankaHardwareInterface.velocity_interface_running_ a2 = false.
Proof.
  destruct (rejected_request_releases_velocity (velocity_interfaces 3) (velocity_interfaces 7)
              (FrankaHardwareInterface.mk (mkHardwareInfo [] ∅) (Some velocity_bridge)
                 (fill 0%float) (fill 0%float) (fill 0%float) (fill 0%float) true true [])
              velocity_bridge eq_refl (conj eq_refl eq_refl) eq_refl eq_refl)
    as (a1 & a2 & r2 & H1 & _ & _ & H2 & _ & _ & Hrun);
    [vm_compute; exact eq_refl | vm_compute; discriminate | vm_compute; discriminate |].
  exists a1, a2. split; [exact H1|]. split; [exact H2 | exact Hrun].
Defined.
